(** * arxow: the three-pass paper analyzer client

    A shallow embedding of the two page components of the repository:

    - [SingleRequest]: [frontend/app/page.js], which posts the file with
      every analysis request;
    - [TwoPhase]: the second [Home] component, which uploads the file
      once and then analyses it by document identifier.

    Both components share the renderer of analysis payloads, embedded in
    [Renderer].  JavaScript values, truthiness, string conversion and
    property access, as far as the components use them, are in [JS]. *)

From stdpp Require Import gmap strings list pretty.
From Stdlib Require Import ZArith String Ascii Bool.

Set Warnings "-register-all".

Open Scope Z_scope.
Open Scope string_scope.

(** ** JavaScript values *)

Module JS.

(** The values that flow through the client: what [response.json()]
    yields, plus [undefined] for absent properties.  A number is carried
    as an integer: the client never computes with numbers, it only tests
    them for truthiness, compares a pass number with [===] and prints
    it.  An object is the list of its own enumerable properties in the
    order [Object.entries] lists them. *)
Inductive value : Type :=
  | JUndefined
  | JNull
  | JBool (b : bool)
  | JNum (n : Z)
  | JStr (s : string)
  | JArr (items : list value)
  | JObj (fields : list (string * value)).

(** What a [throw] carries.  [TypeError]: property access on [null] or
    [undefined]; [SyntaxError]: text that is not JSON; [NetworkError]:
    a rejected [fetch]. *)
Inductive exn : Type := TypeError | SyntaxError | NetworkError.

(** The completion of an expression or statement list: a value, or a
    thrown exception on its way to the nearest [catch]. *)
Inductive completion (A : Type) : Type :=
  | Normal (a : A)
  | Throw (e : exn).
Arguments Normal {A} a.
Arguments Throw {A} e.

Definition cbind {A B} (c : completion A) (k : A -> completion B) : completion B :=
  match c with
  | Normal a => k a
  | Throw e => Throw e
  end.

(** [for (x of xs) ys.push(f x)] where [f] may throw: the first throw
    ends the loop.  This is [Array.prototype.map] with a callback that
    can throw. *)
Fixpoint map_throwing {A B} (f : A -> completion B) (xs : list A) : completion (list B) :=
  match xs with
  | [] => Normal []
  | x :: rest =>
      cbind (f x) (fun y => cbind (map_throwing f rest) (fun ys => Normal (y :: ys)))
  end.

(** [typeof v] *)
Inductive jstype : Type := TyUndefined | TyObject | TyBoolean | TyNumber | TyString.

Definition typeof (v : value) : jstype :=
  match v with
  | JUndefined => TyUndefined
  | JNull => TyObject
  | JBool _ => TyBoolean
  | JNum _ => TyNumber
  | JStr _ => TyString
  | JArr _ => TyObject
  | JObj _ => TyObject
  end.

Definition is_object (v : value) : bool :=
  match typeof v with TyObject => true | _ => false end.

(** [Array.isArray(v)] *)
Definition isArray (v : value) : bool :=
  match v with JArr _ => true | _ => false end.

(** ToBoolean: what [if (v)], [!v] and [v && e] test. *)
Definition truthy (v : value) : bool :=
  match v with
  | JUndefined | JNull => false
  | JBool b => b
  | JNum n => negb (Z.eqb n 0)
  | JStr s => negb (String.eqb s EmptyString)
  | JArr _ | JObj _ => true
  end.

(** ToString, as a template literal applies it to [${v}].  A number is
    printed in decimal, as JavaScript prints an integer below 10^21
    (pass numbers and identifiers are far below); nothing is stated
    about the print of a larger number. *)
Fixpoint to_string (v : value) : string :=
  match v with
  | JUndefined => "undefined"
  | JNull => "null"
  | JBool true => "true"
  | JBool false => "false"
  | JNum n => pretty n
  | JStr s => s
  | JArr items =>
      (fix join (l : list value) : string :=
         match l with
         | [] => EmptyString
         | x :: rest =>
             let sx := match x with
                       | JUndefined | JNull => EmptyString
                       | _ => to_string x
                       end in
             match rest with
             | [] => sx
             | _ :: _ => sx +:+ "," +:+ join rest
             end
         end) items
  | JObj _ => "[object Object]"
  end.

Fixpoint assoc (k : string) (fields : list (string * value)) : value :=
  match fields with
  | [] => JUndefined
  | (k', v) :: rest => if String.eqb k k' then v else assoc k rest
  end.

(** [v.name] for the property names the client reads ([analysis],
    [images], [document_id], [metadata]): a [TypeError] on [null] and
    [undefined], the property of an object, [undefined] on anything
    else. *)
Definition get_prop (v : value) (name : string) : completion value :=
  match v with
  | JUndefined | JNull => Throw TypeError
  | JObj fields => Normal (assoc name fields)
  | _ => Normal JUndefined
  end.

Fixpoint chars_from (i : Z) (s : string) : list (string * value) :=
  match s with
  | EmptyString => []
  | String c rest => (pretty i, JStr (String c EmptyString)) :: chars_from (i + 1) rest
  end.

Fixpoint items_from (i : Z) (l : list value) : list (string * value) :=
  match l with
  | [] => []
  | x :: rest => (pretty i, x) :: items_from (i + 1) rest
  end.

(** [Object.entries(v)]: a [TypeError] on [null] and [undefined]; the
    indexed characters of a string and the indexed items of an array;
    nothing for a number or a boolean. *)
Definition entries (v : value) : completion (list (string * value)) :=
  match v with
  | JUndefined | JNull => Throw TypeError
  | JBool _ | JNum _ => Normal []
  | JStr s => Normal (chars_from 0 s)
  | JArr items => Normal (items_from 0 items)
  | JObj fields => Normal fields
  end.

Fixpoint map_chars (f : ascii -> ascii) (s : string) : string :=
  match s with
  | EmptyString => EmptyString
  | String c rest => String (f c) (map_chars f rest)
  end.

(** [s.replace(/_/g, " ")] *)
Definition underscores_to_spaces (s : string) : string :=
  map_chars (fun c => if Ascii.eqb c "_"%char then " "%char else c) s.

Definition upper_char (c : ascii) : ascii :=
  let n := N_of_ascii c in
  if ((97 <=? n) && (n <=? 122))%N then ascii_of_N (n - 32) else c.

(** [s.toUpperCase()] for a string of ASCII characters, where the
    letters a-z are the only ones that change.  Outside ASCII the
    built-in applies the Unicode case mappings, which can also change
    the length of the string; this function does not, and what is
    stated about the value of a heading is stated for ASCII keys. *)
Definition toUpperCase (s : string) : string := map_chars upper_char s.

(** *** [JSON.stringify] on the values above

    The renderer only needs it as a function from values to strings
    (see [Renderer.WithJSON]); this instance runs the examples. *)

Definition dquote : string := String (ascii_of_N 34) EmptyString.

Definition hex_digit (n : N) : string :=
  String.substring (N.to_nat n) 1 "0123456789abcdef".

Definition escape_char (c : ascii) : string :=
  let n := N_of_ascii c in
  if (n =? 34)%N then "\" +:+ dquote
  else if (n =? 92)%N then "\\"
  else if (n =? 8)%N then "\b"
  else if (n =? 12)%N then "\f"
  else if (n =? 10)%N then "\n"
  else if (n =? 13)%N then "\r"
  else if (n =? 9)%N then "\t"
  else if (n <? 32)%N then "\u00" +:+ hex_digit (n / 16) +:+ hex_digit (n mod 16)
  else String c EmptyString.

Fixpoint escape (s : string) : string :=
  match s with
  | EmptyString => EmptyString
  | String c rest => escape_char c +:+ escape rest
  end.

Definition quote (s : string) : string := dquote +:+ escape s +:+ dquote.

Fixpoint join_with (sep : string) (parts : list string) : string :=
  match parts with
  | [] => EmptyString
  | [x] => x
  | x :: rest => x +:+ sep +:+ join_with sep rest
  end.

(** [None] is the [undefined] that [JSON.stringify(undefined)] returns;
    an [undefined] item of an array is written [null], an [undefined]
    member of an object is left out. *)
Fixpoint stringify (v : value) : option string :=
  match v with
  | JUndefined => None
  | JNull => Some "null"
  | JBool true => Some "true"
  | JBool false => Some "false"
  | JNum n => Some (pretty n)
  | JStr s => Some (quote s)
  | JArr items =>
      Some ("[" +:+ join_with ","
                     ((fix each (l : list value) : list string :=
                         match l with
                         | [] => []
                         | x :: rest => default "null" (stringify x) :: each rest
                         end) items)
                +:+ "]")
  | JObj fields =>
      Some ("{" +:+ join_with ","
                     ((fix each (l : list (string * value)) : list string :=
                         match l with
                         | [] => []
                         | (k, x) :: rest =>
                             match stringify x with
                             | Some sx => (quote k +:+ ":" +:+ sx) :: each rest
                             | None => each rest
                             end
                         end) fields)
                +:+ "}")
  end.

Definition JSON_stringify (v : value) : string := default "undefined" (stringify v).

End JS.

Import JS.

(** ** The renderer of analysis payloads

    [renderAnalysisContent] is the same function in both components up
    to class names and wrapper components; the debugging [console.log]
    calls of [page.js] do not influence what it returns and are left
    out.  The result is the element tree the function returns, with the
    children of [<li>] and [<p>] as the values the JSX puts there. *)

Module Renderer.

(** What follows the heading of a section. *)
Inductive block : Type :=
  | Paragraph (child : value)                  (* <p>{value}</p> *)
  | ItemList (items : list value)              (* <ul> of <li>{item}</li> *)
  | FieldList (lines : list (string * value)). (* <ul> of <li>{label}: {child}</li> *)

Record section : Type := mk_section { heading : string; content : block }.

Inductive element : Type :=
  | AnalysisContent (sections : list section)
  | Placeholder (text : string).

(** The element of the [catch] branch. *)
Definition error_placeholder : element := Placeholder "Error rendering analysis".

Definition array_items (v : value) : list value :=
  match v with JArr items => items | _ => [] end.

Section WithJSON.

(** The two built-ins of the browser the renderer calls.
    [JSON_parse s = None] stands for [JSON.parse(s)] throwing its
    [SyntaxError]. *)
Variable JSON_parse : string -> option value.
Variable JSON_stringify : value -> string.

Definition parse (s : string) : completion value :=
  match JSON_parse s with
  | Some v => Normal v
  | None => Throw SyntaxError
  end.

(** One [<li>] of a nested object: the label, and the child after the
    colon. *)
Definition render_field (kv : string * value) : string * value :=
  let '(subKey, subValue) := kv in
  (underscores_to_spaces subKey,
   if is_object subValue then JStr (JSON_stringify subValue) else subValue).

(** The callback of the outer [map]. *)
Definition render_section (kv : string * value) : completion section :=
  let '(key, value) := kv in
  cbind
    (if is_object value then
       if isArray value then Normal (ItemList (array_items value))
       else cbind (entries value) (fun es => Normal (FieldList (map render_field es)))
     else Normal (Paragraph value))
    (fun body =>
       Normal {| heading := toUpperCase (underscores_to_spaces key);
                 content := body |}).

(** The [try] block. *)
Definition render_try (content : value) : completion element :=
  cbind (match content with
         | JStr s => parse s
         | _ => Normal content
         end)
    (fun parsedContent =>
       cbind (entries parsedContent) (fun es =>
       cbind (map_throwing render_section es) (fun sections =>
       Normal (AnalysisContent sections)))).

(** [try { ... } catch (error) { return <placeholder/> }] *)
Definition renderAnalysisContent (content : value) : element :=
  match render_try content with
  | Normal tree => tree
  | Throw _ => error_placeholder
  end.

(** *** The rendering the specification describes *)

Definition scalar (v : value) : bool :=
  match v with
  | JNull | JBool _ | JNum _ | JStr _ => true
  | _ => false
  end.

(** A section value of a well-formed payload: a scalar, a list of
    scalars, or a nested mapping. *)
Definition well_formed_entry (v : value) : bool :=
  match v with
  | JArr items => forallb scalar items
  | JObj _ => true
  | _ => scalar v
  end.

Definition well_formed (fields : list (string * value)) : bool :=
  forallb (fun kv => well_formed_entry (snd kv)) fields.

(** A "key: value" line; a value that is itself an object is
    stringified. *)
Definition spec_line (kv : string * value) : string * value :=
  (underscores_to_spaces (fst kv),
   match snd kv with
   | JNull | JArr _ | JObj _ => JStr (JSON_stringify (snd kv))
   | other => other
   end).

(** One labeled section per key: a list of the items of an array, the
    lines of a nested object, or a plain text block. *)
Definition spec_section (kv : string * value) : section :=
  {| heading := toUpperCase (underscores_to_spaces (fst kv));
     content := match snd kv with
                | JArr items => ItemList items
                | JObj sub => FieldList (map spec_line sub)
                | other => Paragraph other
                end |}.

End WithJSON.

(** The payload of the specification's example,
    [{"a": 1, "b": ["x","y"], "c": {"d": 2}}]. *)
Definition example_payload : list (string * value) :=
  [("a", JNum 1); ("b", JArr [JStr "x"; JStr "y"]); ("c", JObj [("d", JNum 2)])].

(** A well-formed payload with a [null] scalar,
    [{"summary": "ok", "doi": null}]. *)
Definition payload_with_null : list (string * value) :=
  [("summary", JStr "ok"); ("doi", JNull)].

(** [JSON.parse] on the texts the examples use; any other text is
    outside the table and is treated as rejected. *)
Definition parse_table (s : string) : option value :=
  if String.eqb s "null" then Some JNull
  else if String.eqb s "{}" then Some (JObj [])
  else if String.eqb s "[]" then Some (JArr [])
  else None.

End Renderer.

(** ** Event handlers as state-and-exception computations

    A handler runs against a [world]: the component state React holds
    (the [store], which the setters write), the requests handed to
    [fetch] so far, and the console.  The state variables a handler
    _reads_ are those of the render that created it; every handler
    below therefore takes that snapshot as an argument of its own and
    never reads the store, except through a functional updater
    ([setAnalysis(prev => ...)]), which React applies to the latest
    state.  A run of a handler is taken as one step: the controls that
    start a handler are disabled while a request is in flight. *)

Module Client.

(** The file the user picked. *)
Definition File : Type := string.

Record request : Type := mk_request {
  url : string;
  method : string;
  body : option File   (* the multipart field [file], if any *)
}.

(** What the backend does with a request: the [fetch] promise rejects,
    or it resolves to a response whose body is JSON text ([Some]) or is
    not ([None], on which [response.json()] rejects). *)
Inductive reply : Type :=
  | NetworkFailure
  | Responded (json : option value).

Inductive log_entry : Type :=
  | Log (msg : string)                 (* console.log(msg, ...) *)
  | Error (msg : string) (e : exn).    (* console.error(msg, error) *)

Record world (S : Type) : Type := mk_world {
  store : S;
  sent : list request;
  console : list log_entry;
  (** set when a functional updater throws: React runs the updater
      outside the handler's [try], so the exception surfaces in the
      render phase and no [catch] of the handler sees it *)
  render_error : bool
}.
Arguments mk_world {S}.
Arguments store {S}.
Arguments sent {S}.
Arguments console {S}.
Arguments render_error {S}.

Definition M (S A : Type) : Type := world S -> completion A * world S.

Definition ret {S A} (a : A) : M S A := fun w => (Normal a, w).

Definition bind {S A B} (m : M S A) (k : A -> M S B) : M S B :=
  fun w =>
    match m w with
    | (Normal a, w') => k a w'
    | (Throw e, w') => (Throw e, w')
    end.

Definition lift {S A} (c : completion A) : M S A := fun w => (c, w).

(** [try { body } catch (error) { handler } finally { final }] *)
Definition try_catch_finally {S A}
    (body : M S A) (handler : exn -> M S A) (final : M S unit) : M S A :=
  fun w =>
    let '(r, w1) := match body w with
                    | (Normal a, w') => (Normal a, w')
                    | (Throw e, w') => handler e w'
                    end in
    match final w1 with
    | (Normal _, w2) => (r, w2)
    | (Throw e, w2) => (Throw e, w2)
    end.

(** [setX(v)] and friends: [f] is the change to the stored state. *)
Definition set {S} (f : S -> S) : M S unit :=
  fun w => (Normal tt, mk_world (f (store w)) (sent w) (console w) (render_error w)).

(** [setX(prev => ...)] with an updater that may throw; [trace] is what
    the updater logs when it completes. *)
Definition set_with {S} (f : S -> completion S) (trace : list log_entry) : M S unit :=
  fun w =>
    match f (store w) with
    | Normal s' => (Normal tt, mk_world s' (sent w) (console w ++ trace) (render_error w))
    | Throw _ => (Normal tt, mk_world (store w) (sent w) (console w) true)
    end.

Definition console_log {S} (msg : string) : M S unit :=
  fun w => (Normal tt, mk_world (store w) (sent w) (console w ++ [Log msg]) (render_error w)).

Definition console_error {S} (msg : string) (e : exn) : M S unit :=
  fun w => (Normal tt, mk_world (store w) (sent w) (console w ++ [Error msg e]) (render_error w)).

(** [await fetch(url, init)] *)
Definition fetch {S} (backend : request -> reply) (req : request) : M S (option value) :=
  fun w =>
    let w' := mk_world (store w) (sent w ++ [req]) (console w) (render_error w) in
    match backend req with
    | NetworkFailure => (Throw NetworkError, w')
    | Responded r => (Normal r, w')
    end.

(** [await response.json()] *)
Definition json {S} (response : option value) : M S value :=
  match response with
  | Some data => ret data
  | None => lift (Throw SyntaxError)
  end.

(** The world a handler leaves behind. *)
Definition exec {S A} (m : M S A) (w : world S) : world S := snd (m w).

(** A request failed: the promise rejected or the body was not JSON. *)
Definition failed (r : reply) : bool :=
  match r with
  | NetworkFailure | Responded None => true
  | Responded (Some _) => false
  end.

End Client.

Declare Scope client_scope.
Delimit Scope client_scope with client.
Notation "x <- m ;; k" := (Client.bind m (fun x => k))
  (at level 100, m at next level, right associativity) : client_scope.
Notation "m ;; k" := (Client.bind m (fun _ => k))
  (at level 100, right associativity) : client_scope.

(** The three pass controls. *)
Inductive pass : Type := First | Second | Third.

#[global] Instance pass_eq_dec : EqDecision pass.
Proof. solve_decision. Defined.

Definition number (p : pass) : Z :=
  match p with First => 1 | Second => 2 | Third => 3 end.

Definition base : string := "http://localhost:8000".

Definition present (f : option Client.File) : bool :=
  match f with Some _ => true | None => false end.

(** What a pass control looks like: [disabled] and whether it is the
    highlighted one. *)
Record control : Type := mk_control { disabled : bool; active : bool }.

(** ** The single-request component, [frontend/app/page.js] *)

Module SingleRequest.
Import Client.
Local Open Scope client_scope.

(** The [analysis] state object; its three keys are fixed. *)
Record results : Type := mk_results {
  first_pass : value;
  second_pass : value;
  third_pass : value
}.

Record state : Type := mk_state {
  file : option File;      (* [None]: [null], or [undefined] after an emptied picker *)
  analysis : results;
  loading : bool;
  currentPass : Z
}.

Definition no_results : results := mk_results JNull JNull JNull.

(** The [useState] initial values. *)
Definition initial : state := mk_state None no_results false 1.

Definition setFile (f : option File) : M state unit :=
  set (fun s => mk_state f (analysis s) (loading s) (currentPass s)).
Definition with_analysis (a : results) (s : state) : state :=
  mk_state (file s) a (loading s) (currentPass s).
Definition setAnalysis (a : results) : M state unit := set (with_analysis a).
Definition setLoading (b : bool) : M state unit :=
  set (fun s => mk_state (file s) (analysis s) b (currentPass s)).
(** The state with another current pass. *)
Definition showing (n : Z) (s : state) : state :=
  mk_state (file s) (analysis s) (loading s) n.
Definition setCurrentPass (n : Z) : M state unit := set (showing n).

(** [handleFileUpload(e)], with [picked] for [e.target.files[0]]. *)
Definition handleFileUpload (picked : option File) : M state unit :=
  setFile picked ;;
  setAnalysis no_results ;;
  setCurrentPass 1.

(** The updater handed to [setAnalysis] by [analyzePaper]. *)
Definition newAnalysis (passNumber : Z) (data : value) (prev : results) : completion results :=
  cbind (if (passNumber =? 1)%Z then get_prop data "analysis" else Normal (first_pass prev)) (fun fp =>
  cbind (if (passNumber =? 2)%Z then get_prop data "analysis" else Normal (second_pass prev)) (fun sp =>
  cbind (if (passNumber =? 3)%Z then get_prop data "analysis" else Normal (third_pass prev)) (fun tp =>
  Normal (mk_results fp sp tp)))).

Definition analyze_request (f : File) (passNumber : Z) : request :=
  {| url := base +:+ "/analyze/paper?pass_number=" +:+ pretty passNumber;
     method := "POST";
     body := Some f |}.

Section WithBackend.

Variable backend : request -> reply.

(** [analyzePaper(passNumber)], in the closure of the render whose
    state was [snap]. *)
Definition analyzePaper (snap : state) (passNumber : Z) : M state unit :=
  match file snap with
  | None => ret tt
  | Some f =>
      setLoading true ;;
      try_catch_finally
        (console_log "Analyzing paper for pass:" ;;
         response <- fetch backend (analyze_request f passNumber) ;;
         data <- json response ;;
         console_log "Received analysis data:" ;;
         set_with (fun s => cbind (newAnalysis passNumber data (analysis s))
                              (fun a => Normal (with_analysis a s)))
                  [Log "Updated analysis state:"] ;;
         setCurrentPass passNumber)
        (fun error => console_error "Error analyzing paper:" error)
        (setLoading false)
  end.

(** The [onClick] of the three pass buttons. *)
Definition onClick (p : pass) (snap : state) : M state unit :=
  match p with
  | First =>
      if truthy (first_pass (analysis snap)) then setCurrentPass 1
      else analyzePaper snap 1
  | Second =>
      if truthy (second_pass (analysis snap)) then setCurrentPass 2
      else analyzePaper snap 2
  | Third =>
      if truthy (third_pass (analysis snap)) then setCurrentPass 3
      else analyzePaper snap 3
  end.

(** A click runs the handler of the current render. *)
Definition click (p : pass) (w : world state) : world state :=
  exec (onClick p (store w)) w.

End WithBackend.

Definition select_file (picked : option File) (w : world state) : world state :=
  exec (handleFileUpload picked) w.

(** The [disabled] prop of the three pass buttons. *)
Definition button_disabled (p : pass) (s : state) : bool :=
  match p with
  | First => negb (present (file s)) || loading s
  | Second => negb (present (file s)) || negb (truthy (first_pass (analysis s))) || loading s
  | Third => negb (present (file s)) || negb (truthy (second_pass (analysis s))) || loading s
  end.

Definition button (p : pass) (s : state) : control :=
  {| disabled := button_disabled p s; active := (currentPass s =? number p)%Z |}.

(** The result panels under the buttons: heading and the content handed
    to the renderer. *)
Definition panels (s : state) : list (string * value) :=
  (if truthy (first_pass (analysis s)) && (currentPass s =? 1)%Z
   then [("First Pass Analysis", first_pass (analysis s))] else [])
  ++ (if truthy (second_pass (analysis s)) && (currentPass s =? 2)%Z
      then [("Second Pass Analysis", second_pass (analysis s))] else [])
  ++ (if truthy (third_pass (analysis s)) && (currentPass s =? 3)%Z
      then [("Third Pass Analysis", third_pass (analysis s))] else []).

(** What the component renders from a state. *)
Record page : Type := mk_page {
  buttons : list control;
  loading_indicator : bool;
  results_shown : list (string * value)
}.

Definition render (s : state) : page :=
  {| buttons := [button First s; button Second s; button Third s];
     loading_indicator := loading s;
     results_shown := panels s |}.

(** The stored result of a pass, and whether the component treats it as
    there: every test the component makes on a result is a truthiness
    test. *)
Definition result (p : pass) (s : state) : value :=
  match p with
  | First => first_pass (analysis s)
  | Second => second_pass (analysis s)
  | Third => third_pass (analysis s)
  end.

Definition stored (p : pass) (s : state) : bool := truthy (result p s).

End SingleRequest.

(** ** The two-phase component: upload once, analyse by identifier *)

Module TwoPhase.
Import Client.
Local Open Scope client_scope.

(** The [analysis] state is an object whose keys are computed
    ([pass_1], [pass_2], ...), so it is a finite map here. *)
Record state : Type := mk_state {
  file : option File;
  documentId : value;
  analysis : gmap string value;
  images : value;
  loading : bool;
  currentPass : Z;
  metadata : value
}.

(** The object literal [{ first_pass: null, second_pass: null,
    third_pass: null }]. *)
Definition no_results : gmap string value :=
  <["first_pass" := JNull]> (<["second_pass" := JNull]> (<["third_pass" := JNull]> ∅)).

(** [obj[key]] on the [analysis] object: [undefined] for an absent key. *)
Definition prop (obj : gmap string value) (key : string) : value :=
  default JUndefined (obj !! key).

(** The [useState] initial values. *)
Definition initial : state :=
  mk_state None JNull no_results (JArr []) false 1 JNull.

Definition setFile (f : option File) : M state unit :=
  set (fun s => mk_state f (documentId s) (analysis s) (images s) (loading s)
                         (currentPass s) (metadata s)).
Definition setDocumentId (v : value) : M state unit :=
  set (fun s => mk_state (file s) v (analysis s) (images s) (loading s)
                         (currentPass s) (metadata s)).
Definition with_analysis (a : gmap string value) (s : state) : state :=
  mk_state (file s) (documentId s) a (images s) (loading s) (currentPass s) (metadata s).
Definition setAnalysis (a : gmap string value) : M state unit := set (with_analysis a).
Definition setImages (v : value) : M state unit :=
  set (fun s => mk_state (file s) (documentId s) (analysis s) v (loading s)
                         (currentPass s) (metadata s)).
Definition setLoading (b : bool) : M state unit :=
  set (fun s => mk_state (file s) (documentId s) (analysis s) (images s) b
                         (currentPass s) (metadata s)).
Definition setCurrentPass (n : Z) : M state unit :=
  set (fun s => mk_state (file s) (documentId s) (analysis s) (images s) (loading s)
                         n (metadata s)).
Definition setMetadata (v : value) : M state unit :=
  set (fun s => mk_state (file s) (documentId s) (analysis s) (images s) (loading s)
                         (currentPass s) v).

(** [handleFileUpload(e)], with [picked] for [e.target.files[0]]. *)
Definition handleFileUpload (picked : option File) : M state unit :=
  setFile picked ;;
  setAnalysis no_results ;;
  setImages (JArr []) ;;
  setDocumentId JNull ;;
  setCurrentPass 1 ;;
  setMetadata JNull.

Definition upload_request (f : File) : request :=
  {| url := base +:+ "/upload/paper"; method := "POST"; body := Some f |}.

(** The request of [analyzePaper]; [id] is the value interpolated into
    the template literal. *)
Definition analyze_request (id : value) (passNumber : Z) : request :=
  {| url := base +:+ "/analyze/paper/" +:+ to_string id
              +:+ "?pass_number=" +:+ pretty passNumber;
     method := "POST";
     body := None |}.

(** The key [`pass_${passNumber}`]. *)
Definition pass_key (passNumber : Z) : string := "pass_" +:+ pretty passNumber.

Section WithBackend.

Variable backend : request -> reply.

(** [uploadDocument()]: resolves to [data.document_id], or to
    [undefined] without a file or after a failure. *)
Definition uploadDocument (snap : state) : M state value :=
  match file snap with
  | None => ret JUndefined
  | Some f =>
      setLoading true ;;
      try_catch_finally
        (response <- fetch backend (upload_request f) ;;
         data <- json response ;;
         id <- lift (get_prop data "document_id") ;;
         setDocumentId id ;;
         md <- lift (get_prop data "metadata") ;;
         setMetadata md ;;
         lift (get_prop data "document_id"))
        (fun error => console_error "Error uploading document:" error ;; ret JUndefined)
        (setLoading false)
  end.

(** The part of [analyzePaper] from [setLoading(true)] on.  The
    template literal reads [documentId], the state variable of the
    enclosing render. *)
Definition request_analysis (snap : state) (passNumber : Z) : M state unit :=
  setLoading true ;;
  try_catch_finally
    (response <- fetch backend (analyze_request (documentId snap) passNumber) ;;
     data <- json response ;;
     set_with (fun s => cbind (get_prop data "analysis") (fun a =>
                        Normal (with_analysis (<[pass_key passNumber := a]> (analysis s)) s)))
              [] ;;
     found <- lift (get_prop data "images") ;;
     (if truthy found
      then imgs <- lift (get_prop data "images") ;; setImages imgs
      else ret tt) ;;
     setCurrentPass passNumber)
    (fun error => console_error "Error analyzing paper:" error)
    (setLoading false).

(** [analyzePaper(passNumber)], in the closure of the render whose
    state was [snap]. *)
Definition analyzePaper (snap : state) (passNumber : Z) : M state unit :=
  if negb (truthy (documentId snap)) && present (file snap) then
    newDocId <- uploadDocument snap ;;
    if negb (truthy newDocId) then ret tt
    else request_analysis snap passNumber
  else request_analysis snap passNumber.

(** The [onClick] of the three pass buttons. *)
Definition onClick (p : pass) (snap : state) : M state unit :=
  analyzePaper snap (number p).

(** A click runs the handler of the current render. *)
Definition click (p : pass) (w : world state) : world state :=
  exec (onClick p (store w)) w.

End WithBackend.

Definition select_file (picked : option File) (w : world state) : world state :=
  exec (handleFileUpload picked) w.

(** The [disabled] prop of the three pass buttons. *)
Definition button_disabled (p : pass) (s : state) : bool :=
  match p with
  | First => negb (present (file s)) || loading s
  | Second => negb (present (file s)) || negb (truthy (prop (analysis s) "pass_1")) || loading s
  | Third => negb (present (file s)) || negb (truthy (prop (analysis s) "pass_2")) || loading s
  end.

Definition button (p : pass) (s : state) : control :=
  {| disabled := button_disabled p s; active := (currentPass s =? number p)%Z |}.

(** The panel of the displayed pass: its number and the content handed
    to the renderer. *)
Definition panel (s : state) : option (Z * value) :=
  let shown := prop (analysis s) (pass_key (currentPass s)) in
  if truthy shown then Some (currentPass s, shown) else None.

(** What the component renders from a state.  [figures] describes the
    figures panel, [images.length > 0 && images.map(...)], for an
    [images] value that is an array: its items, none when it is empty.
    A value of another kind is outside what [figures] describes (a
    non-empty string has a length and no [map], and the render throws);
    statements about [figures] are made for arrays. *)
Record page : Type := mk_page {
  buttons : list control;
  loading_dialog : option string;
  metadata_card : option value;
  result_shown : option (Z * value);
  figures : list value
}.

Definition render (s : state) : page :=
  {| buttons := [button First s; button Second s; button Third s];
     loading_dialog :=
       if loading s
       then Some (if truthy (documentId s) then "Analyzing Paper" else "Uploading Paper")
       else None;
     metadata_card := if truthy (metadata s) then Some (metadata s) else None;
     result_shown := panel s;
     figures := Renderer.array_items (images s) |}.

(** The stored result of a pass, and whether the component treats it as
    there. *)
Definition result (p : pass) (s : state) : value :=
  prop (analysis s) (pass_key (number p)).

Definition stored (p : pass) (s : state) : bool := truthy (result p s).

End TwoPhase.

(** ** Concrete backends and sessions, for the examples *)

Module Scenario.
Import Client.

Definition paper : File := "paper.pdf".

Definition summary : value :=
  JObj [("summary", JStr "A study of sparse attention."); ("key_points", JArr [JStr "linear cost"])].

Definition figure : value :=
  JObj [("image", JStr "iVBORw0KGgo="); ("caption", JStr "Figure 1");
        ("page_number", JNum 2)].

Definition is_upload (req : request) : bool :=
  String.eqb (url req) (base +:+ "/upload/paper").

(** A backend that answers as section 6 of the specification says. *)
Definition serving (req : request) : reply :=
  if is_upload req
  then Responded (Some (JObj [("document_id", JStr "abc");
                              ("metadata", JObj [("pages", JNum 12)])]))
  else Responded (Some (JObj [("analysis", summary); ("images", JArr [figure])])).

(** The same backend when a pass has no figures to return: the
    [images] member is left out. *)
Definition serving_text_only (req : request) : reply :=
  if is_upload req then serving req
  else Responded (Some (JObj [("analysis", summary)])).

(** A backend that answers every request with the JSON body of an
    error status. *)
Definition not_found (_ : request) : reply :=
  Responded (Some (JObj [("detail", JStr "Not Found")])).

(** No connection. *)
Definition offline (_ : request) : reply := NetworkFailure.

(** A response whose body is not JSON. *)
Definition garbled (_ : request) : reply := Responded None.

Definition fresh {S} (s : S) : world S := mk_world s [] [] false.

(** Single-request sessions. *)
Definition picked1 : world SingleRequest.state :=
  SingleRequest.select_file (Some paper) (fresh SingleRequest.initial).
Definition analysed1 : world SingleRequest.state :=
  SingleRequest.click serving First picked1.

(** Two-phase sessions. *)
Definition picked2 : world TwoPhase.state :=
  TwoPhase.select_file (Some paper) (fresh TwoPhase.initial).
Definition analysed2 : world TwoPhase.state :=
  TwoPhase.click serving First picked2.

End Scenario.

(** ** The figure card of the two-phase component

    [ImageDisplay({ imageData })] reads four members of [imageData];
    none of the names is a built-in property, so [get_prop] applies.
    The component function runs when React renders the element that
    the figures panel created for the item. *)

Module Figures.

(** What a conditional child [{c && <p>...</p>}] leaves in the tree:
    the element when [c] is truthy, the falsy value itself otherwise. *)
Inductive slot : Type :=
  | Shown (text : value)
  | Skipped (falsy : value).

Record card : Type := mk_card {
  src : string;             (* the [src] of the [<img>] *)
  alt : value;              (* its [alt] *)
  caption_slot : slot;      (* the caption paragraph *)
  footer : list value       (* the children of the last [<p>] *)
}.

Definition ImageDisplay (imageData : value) : completion card :=
  cbind (get_prop imageData "image") (fun image =>
  cbind (get_prop imageData "caption") (fun caption =>
  cbind (get_prop imageData "page_number") (fun page_number =>
  cbind (get_prop imageData "reference") (fun reference =>
  Normal {| src := "data:image/png;base64," +:+ to_string image;
            alt := if truthy caption then caption else JStr "Paper figure";
            caption_slot := if truthy caption then Shown caption else Skipped caption;
            footer := [ JStr "Page "; page_number;
                        if truthy reference
                        then JStr (" | Reference: " +:+ to_string reference)
                        else reference ] |})))).

(** The cards of [images.map((imageData, index) => <ImageDisplay .../>)],
    in order; the first item whose card throws ends the render. *)
Definition cards (items : list value) : completion (list card) :=
  map_throwing ImageDisplay items.

End Figures.

(** ** Sessions without overlap

    The worlds reached from the initial state by picking a file or by
    clicking a pass control that is not disabled, when every click is
    answered before the next event: no file is picked while a request
    is pending.  The backend may answer each click in its own way.
    [Awaits] below drops the restriction. *)

Module Session.
Import Client.



(** The heading of the result panel of a pass in [page.js]. *)
Definition title (p : pass) : string :=
  match p with
  | First => "First Pass Analysis"
  | Second => "Second Pass Analysis"
  | Third => "Third Pass Analysis"
  end.

(** The pass after a pass, if there is one. *)
Definition next (p : pass) : option pass :=
  match p with
  | First => Some Second
  | Second => Some Third
  | Third => None
  end.

End Session.

(** ** Handlers split at their awaits

    A handler gives control back to the browser at each [await]; the
    file input is never disabled, so a file can be picked before the
    answer arrives, and the rest of the handler then runs on the state
    that [handleFileUpload] has reset.  Here each handler is cut at
    its awaits: the part that runs at the click, and the part that runs
    when the backend's answer arrives.  [await fetch(...)] and [await
    response.json()] are taken as one await: nothing the components
    do between the two can be observed.  The page waits for the
    requests in the [waiting] list of a session. *)

Module Awaits.
Import Client.
Local Open Scope client_scope.

(** The two halves of [await fetch(url, init)]: the request leaves, and
    later the promise settles. *)
Definition issue {S} (req : request) : M S unit :=
  fun w => (Normal tt, mk_world (store w) (sent w ++ [req]) (console w) (render_error w)).

Definition settle {S} (r : reply) : M S (option value) :=
  match r with
  | NetworkFailure => lift (Throw NetworkError)
  | Responded response => ret response
  end.

End Awaits.

Module SingleRequestAwaits.
Import Client Awaits SingleRequest.
Local Open Scope client_scope.

(** [analyzePaper] with a file, up to the call of [fetch]. *)
Definition request_sent (f : File) (passNumber : Z) : M state unit :=
  setLoading true ;;
  console_log "Analyzing paper for pass:" ;;
  issue (analyze_request f passNumber).

(** [analyzePaper] from the settlement of [fetch] to its end. *)
Definition response_arrived (passNumber : Z) (r : reply) : M state unit :=
  try_catch_finally
    (response <- settle r ;;
     data <- json response ;;
     console_log "Received analysis data:" ;;
     set_with (fun s => cbind (newAnalysis passNumber data (analysis s))
                          (fun a => Normal (with_analysis a s)))
              [Log "Updated analysis state:"] ;;
     setCurrentPass passNumber)
    (fun error => console_error "Error analyzing paper:" error)
    (setLoading false).

(** What the [onClick] of a pass button does before control returns to
    the browser. *)
Definition click_begins (p : pass) (snap : state) : M state unit :=
  if stored p snap then setCurrentPass (number p)
  else match file snap with
       | Some f => request_sent f (number p)
       | None => ret tt
       end.

(** The passes whose answer the page waits for after that. *)
Definition awaited (p : pass) (snap : state) : list Z :=
  if stored p snap then []
  else match file snap with
       | Some _ => [number p]
       | None => []
       end.

(** The sessions: [reachable calm w waiting] when the page can be in
    world [w] waiting for the answers to the passes in [waiting].  A
    file is picked at any time; with [calm] set, only while the page
    waits for nothing. *)
Inductive reachable (calm : bool) : world state -> list Z -> Prop :=
  | start : reachable calm (mk_world initial [] [] false) []
  | select picked w waiting :
      reachable calm w waiting ->
      (calm = true -> waiting = []) ->
      reachable calm (select_file picked w) waiting
  | click p w waiting :
      reachable calm w waiting ->
      button_disabled p (store w) = false ->
      reachable calm (exec (click_begins p (store w)) w) (waiting ++ awaited p (store w))
  | answer r passNumber w before after :
      reachable calm w (before ++ passNumber :: after) ->
      reachable calm (exec (response_arrived passNumber r) w) (before ++ after).

End SingleRequestAwaits.

Module TwoPhaseAwaits.
Import Client Awaits TwoPhase.
Local Open Scope client_scope.

(** What the page waits for: the answer to an upload, after which
    [analyzePaper(passNumber)] of the render [snap] goes on, or the
    answer to an analysis request. *)
Inductive awaiting : Type :=
  | Upload (snap : state) (passNumber : Z)
  | Analysis (passNumber : Z).

(** [uploadDocument] with a file, up to the call of [fetch]. *)
Definition upload_sent (f : File) : M state unit :=
  setLoading true ;;
  issue (upload_request f).

(** [uploadDocument] from the settlement of [fetch] to its end. *)
Definition upload_arrived (r : reply) : M state value :=
  try_catch_finally
    (response <- settle r ;;
     data <- json response ;;
     id <- lift (get_prop data "document_id") ;;
     setDocumentId id ;;
     md <- lift (get_prop data "metadata") ;;
     setMetadata md ;;
     lift (get_prop data "document_id"))
    (fun error => console_error "Error uploading document:" error ;; ret JUndefined)
    (setLoading false).

(** [analyzePaper] from [setLoading(true)] to the call of [fetch]. *)
Definition analysis_sent (snap : state) (passNumber : Z) : M state unit :=
  setLoading true ;;
  issue (analyze_request (documentId snap) passNumber).

(** [analyzePaper] from the settlement of that [fetch] to its end. *)
Definition analysis_arrived (passNumber : Z) (r : reply) : M state unit :=
  try_catch_finally
    (response <- settle r ;;
     data <- json response ;;
     set_with (fun s => cbind (get_prop data "analysis") (fun a =>
                        Normal (with_analysis (<[pass_key passNumber := a]> (analysis s)) s)))
              [] ;;
     found <- lift (get_prop data "images") ;;
     (if truthy found
      then imgs <- lift (get_prop data "images") ;; setImages imgs
      else ret tt) ;;
     setCurrentPass passNumber)
    (fun error => console_error "Error analyzing paper:" error)
    (setLoading false).

(** The test [!documentId && file] of [analyzePaper]. *)
Definition uploads_first (snap : state) : bool :=
  negb (truthy (documentId snap)) && present (file snap).

(** What the [onClick] of a pass button does before control returns to
    the browser, and what the page waits for after that. *)
Definition click_begins (p : pass) (snap : state) : M state unit :=
  if uploads_first snap then
    match file snap with
    | Some f => upload_sent f
    | None => ret tt
    end
  else analysis_sent snap (number p).

Definition awaited (p : pass) (snap : state) : list awaiting :=
  if uploads_first snap then [Upload snap (number p)] else [Analysis (number p)].

(** [analyzePaper] when the answer to its upload arrives: the rest of
    [uploadDocument], the test of [newDocId], and the analysis request
    if the test lets it through.  The three run in one turn: the
    promise of [uploadDocument] resolves and [analyzePaper] goes on
    before the browser handles another event. *)
Definition upload_answered (snap : state) (passNumber : Z) (r : reply) : M state (list awaiting) :=
  newDocId <- upload_arrived r ;;
  if negb (truthy newDocId) then ret []
  else analysis_sent snap passNumber ;; ret [Analysis passNumber].

(** The part of the handler that an answer sets off, with what the
    page waits for next. *)
Definition resumes (k : awaiting) (r : reply) : M state (list awaiting) :=
  match k with
  | Upload snap passNumber => upload_answered snap passNumber r
  | Analysis passNumber => analysis_arrived passNumber r ;; ret []
  end.

Inductive reachable (calm : bool) : world state -> list awaiting -> Prop :=
  | start : reachable calm (mk_world initial [] [] false) []
  | select picked w waiting :
      reachable calm w waiting ->
      (calm = true -> waiting = []) ->
      reachable calm (select_file picked w) waiting
  | click p w waiting :
      reachable calm w waiting ->
      button_disabled p (store w) = false ->
      reachable calm (exec (click_begins p (store w)) w) (waiting ++ awaited p (store w))
  | answer r k w before after next w' :
      reachable calm w (before ++ k :: after) ->
      resumes k r w = (Normal next, w') ->
      reachable calm w' (before ++ after ++ next).

End TwoPhaseAwaits.

(** * Properties *)

(** ** The renderer *)

Section RendererProperties.

Variable JSON_parse : string -> option value.
Variable JSON_stringify : value -> string.

Local Abbreviation renderAnalysisContent := (Renderer.renderAnalysisContent JSON_parse JSON_stringify).
Local Abbreviation render_try := (Renderer.render_try JSON_parse JSON_stringify).
Local Abbreviation render_section := (Renderer.render_section JSON_stringify).
Local Abbreviation render_field := (Renderer.render_field JSON_stringify).
Local Abbreviation spec_section := (Renderer.spec_section JSON_stringify).
Local Abbreviation spec_line := (Renderer.spec_line JSON_stringify).

(** Whatever the [try] block returns is a tree of sections. *)
Lemma render_try_returns_tree content tree :
  render_try content = Normal tree ->
  exists sections, tree = Renderer.AnalysisContent sections.
Proof.
  unfold Renderer.render_try, cbind. intros H.
  destruct (match content with JStr s => Renderer.parse JSON_parse s | _ => Normal content end)
    as [parsed|]; [|discriminate].
  destruct (entries parsed) as [es|]; [|discriminate].
  destruct (map_throwing render_section es) as [sections|]; [|discriminate].
  injection H as <-. eauto.
Qed.

(** A throw anywhere in the [try] block ends in the placeholder. *)
Lemma render_caught content e :
  render_try content = Throw e ->
  renderAnalysisContent content = Renderer.error_placeholder.
Proof. unfold Renderer.renderAnalysisContent. now intros ->. Qed.

Lemma parse_failure_throws s :
  JSON_parse s = None -> render_try (JStr s) = Throw SyntaxError.
Proof. unfold Renderer.render_try, Renderer.parse. now intros ->. Qed.

(** C4. For every input value the renderer returns either a tree of
    sections or the fixed "Error rendering analysis" placeholder: every
    exception of the [try] block, from [JSON.parse], from
    [Object.entries] or from a callback, is caught.  In particular a
    string that [JSON.parse] rejects is rendered as the placeholder. *)
Theorem renderer_never_throws :
  (forall content : value,
      (exists sections, renderAnalysisContent content = Renderer.AnalysisContent sections)
      \/ renderAnalysisContent content = Renderer.Placeholder "Error rendering analysis")
  /\ (forall s : string,
        JSON_parse s = None ->
        renderAnalysisContent (JStr s) = Renderer.Placeholder "Error rendering analysis").
Proof.
  split.
  - intros content. destruct (render_try content) as [tree|e] eqn:Htry.
    + left. destruct (render_try_returns_tree _ _ Htry) as [sections ->].
      exists sections. unfold Renderer.renderAnalysisContent. now rewrite Htry.
    + right. exact (render_caught _ _ Htry).
  - intros s Hs. exact (render_caught _ _ (parse_failure_throws s Hs)).
Qed.

(** A [null] where a section value is expected: [typeof null] is
    ["object"], [Object.entries(null)] throws inside the callback, and
    the [catch] answers. *)
Example render_null_section :
  renderAnalysisContent (JObj [("summary", JStr "ok"); ("figures", JNull)])
  = Renderer.error_placeholder.
Proof. reflexivity. Qed.

(** A payload that is no object at all: a number has no entries, a
    [null] payload throws. *)
Example render_number_and_null :
  renderAnalysisContent (JNum 7) = Renderer.AnalysisContent []
  /\ renderAnalysisContent JNull = Renderer.error_placeholder.
Proof. split; reflexivity. Qed.

Lemma render_field_spec kv : render_field kv = spec_line kv.
Proof. destruct kv as [k v]. now destruct v. Qed.

(** The payload of the specification's example: sections A (text 1),
    B (items x, y) and C (one line, d: 2). *)
Example render_example_payload :
  renderAnalysisContent (JObj Renderer.example_payload)
  = Renderer.AnalysisContent
      [ Renderer.mk_section "A" (Renderer.Paragraph (JNum 1));
        Renderer.mk_section "B" (Renderer.ItemList [JStr "x"; JStr "y"]);
        Renderer.mk_section "C" (Renderer.FieldList [("d", JNum 2)]) ].
Proof. reflexivity. Qed.

End RendererProperties.

(** The renderer on a text that is not JSON. *)
Lemma renderer_never_throws_witness :
  Renderer.parse_table "{oops" = None
  /\ Renderer.renderAnalysisContent Renderer.parse_table JSON_stringify (JStr "{oops")
     = Renderer.Placeholder "Error rendering analysis".
Proof.
  split; [reflexivity|].
  apply (proj2 (renderer_never_throws Renderer.parse_table JSON_stringify)). reflexivity.
Defined.

(** ** Shared proof steps *)

(** Open the handler combinators, so that a handler becomes a function
    on worlds. *)
Ltac open_handlers :=
  unfold Client.exec, Client.try_catch_finally, Client.bind, Client.fetch, Client.json,
         Client.set, Client.set_with, Client.console_log, Client.console_error,
         Client.ret, Client.lift in *.

(** Case analysis on what the backend answered to the request in the
    goal: rejected, not JSON, or JSON. *)
Ltac by_reply :=
  match goal with
  | |- context [match ?backend ?req with Client.NetworkFailure => _ | Client.Responded _ => _ end] =>
      let data := fresh "data" in
      let Hreply := fresh "Hreply" in
      destruct (backend req) as [|[data|]] eqn:Hreply
  end.

(** ** The single-request component *)

Section SingleRequestProperties.

Import Client.
Variable backend : request -> reply.

Local Abbreviation analyzePaper := (SingleRequest.analyzePaper backend).
Local Abbreviation click := (SingleRequest.click backend).

Lemma click_stored1 p w :
  SingleRequest.stored p (store w) = true ->
  click p w = mk_world (SingleRequest.showing (number p) (store w)) (sent w) (console w) (render_error w).
Proof.
  unfold SingleRequest.click, SingleRequest.onClick, SingleRequest.stored, SingleRequest.result.
  destruct p; intros ->; reflexivity.
Qed.

(** C10. Without a file, [analyzePaper] of the single-request
    component returns at its guard: no request is sent, nothing is
    logged, and the state (results, current pass, loading flag) is
    what it was. *)
Theorem analyze_without_file_is_noop snap passNumber w :
  SingleRequest.file snap = None ->
  analyzePaper snap passNumber w = (Normal tt, w).
Proof. unfold SingleRequest.analyzePaper. now intros ->. Qed.

(** The updater of [analyzePaper] writes the result of its own pass
    only. *)
Lemma newAnalysis_frame passNumber data prev a q :
  SingleRequest.newAnalysis passNumber data prev = Normal a ->
  number q <> passNumber ->
  SingleRequest.result q (SingleRequest.with_analysis a (SingleRequest.mk_state None prev false 0))
  = SingleRequest.result q (SingleRequest.mk_state None prev false 0).
Proof.
  unfold SingleRequest.newAnalysis, cbind. intros H Hq.
  destruct q; cbn in Hq |- *;
    repeat match type of H with
           | context [(passNumber =? ?k)%Z] =>
               destruct (Z.eqb_spec passNumber k); [try lia|]
           | context [get_prop data "analysis"] =>
               destruct (get_prop data "analysis"); [|discriminate]
           end;
    injection H as <-; reflexivity.
Qed.

(** What [analyzePaper] can do to the stored results: nothing, or the
    update computed by [newAnalysis]. *)
Lemma analyzePaper_results snap passNumber w :
  let w' := exec (analyzePaper snap passNumber) w in
  SingleRequest.analysis (store w') = SingleRequest.analysis (store w)
  \/ exists data,
       SingleRequest.newAnalysis passNumber data (SingleRequest.analysis (store w))
       = Normal (SingleRequest.analysis (store w')).
Proof.
  unfold SingleRequest.analyzePaper. destruct (SingleRequest.file snap) as [f|]; [|now left].
  open_handlers. cbn. by_reply; cbn; try now left.
  destruct (SingleRequest.newAnalysis passNumber data _) as [a|] eqn:Hnew; cbn.
  - right. exists data. exact Hnew.
  - now left.
Qed.

Lemma analyzePaper_frame1 snap passNumber w q :
  number q <> passNumber ->
  SingleRequest.result q (store (exec (analyzePaper snap passNumber) w))
  = SingleRequest.result q (store w).
Proof.
  intros Hq. destruct (analyzePaper_results snap passNumber w) as [Heq|[data Hnew]].
  - unfold SingleRequest.result. now rewrite Heq.
  - pose proof (newAnalysis_frame _ _ _ _ q Hnew Hq) as Hframe.
    destruct q; exact Hframe.
Qed.

Lemma click_frame1 p q w :
  p <> q ->
  SingleRequest.result q (store (click p w)) = SingleRequest.result q (store w).
Proof.
  intros Hpq. destruct (SingleRequest.stored p (store w)) eqn:Hp.
  - rewrite (click_stored1 p w Hp). now destruct q.
  - assert (Hrun : click p w = exec (analyzePaper (store w) (number p)) w).
    { unfold SingleRequest.click, SingleRequest.onClick.
      unfold SingleRequest.stored, SingleRequest.result in Hp.
      destruct p; now rewrite Hp. }
    rewrite Hrun. apply analyzePaper_frame1. destruct p, q; cbn; congruence.
Qed.

(** No pass control of the single-request component takes a stored
    result away. *)
Lemma click_keeps_stored1 p q w :
  SingleRequest.stored q (store w) = true ->
  SingleRequest.stored q (store (click p w)) = true.
Proof.
  intros Hq. unfold SingleRequest.stored in *.
  destruct (decide (p = q)) as [->|Hpq].
  - rewrite (click_stored1 q w Hq). now destruct q.
  - now rewrite (click_frame1 p q w Hpq).
Qed.

(** A failed request of [analyzePaper]. *)
Lemma analyzePaper_failure1 snap passNumber w f :
  SingleRequest.file snap = Some f ->
  failed (backend (SingleRequest.analyze_request f passNumber)) = true ->
  exists e,
    exec (analyzePaper snap passNumber) w
    = mk_world (SingleRequest.mk_state (SingleRequest.file (store w))
                  (SingleRequest.analysis (store w)) false
                  (SingleRequest.currentPass (store w)))
               (sent w ++ [SingleRequest.analyze_request f passNumber])
               (console w ++ [Log "Analyzing paper for pass:";
                              Error "Error analyzing paper:" e])
               (render_error w).
Proof.
  intros Hfile Hfailed. unfold SingleRequest.analyzePaper. rewrite Hfile.
  open_handlers. cbn.
  destruct (backend _) as [|[data|]]; try discriminate; cbn;
    eexists; rewrite <- app_assoc; reflexivity.
Qed.

End SingleRequestProperties.

(** ** The two-phase component *)

Lemma pass_key_inj n m : TwoPhase.pass_key n = TwoPhase.pass_key m -> n = m.
Proof.
  unfold TwoPhase.pass_key. cbn. intros H. injection H as H.
  exact (inj pretty _ _ H).
Qed.

Lemma prop_insert_ne (obj : gmap string value) k k' v :
  k <> k' -> TwoPhase.prop (<[k := v]> obj) k' = TwoPhase.prop obj k'.
Proof. intros Hne. unfold TwoPhase.prop. now rewrite lookup_insert_ne. Qed.

Lemma prop_insert_eq (obj : gmap string value) k v :
  TwoPhase.prop (<[k := v]> obj) k = v.
Proof. unfold TwoPhase.prop. now rewrite lookup_insert_eq. Qed.

Lemma no_results_has_no_pass p :
  TwoPhase.prop TwoPhase.no_results (TwoPhase.pass_key (number p)) = JUndefined.
Proof. destruct p; reflexivity. Qed.

Section TwoPhaseProperties.

Import Client.
Variable backend : request -> reply.

Local Abbreviation uploadDocument := (TwoPhase.uploadDocument backend).
Local Abbreviation request_analysis := (TwoPhase.request_analysis backend).
Local Abbreviation analyzePaper := (TwoPhase.analyzePaper backend).
Local Abbreviation click := (TwoPhase.click backend).

(** [uploadDocument] leaves results, figures and current pass alone,
    clears the loading flag, and sends at most the upload request. *)
Lemma uploadDocument_frame snap w :
  let w' := exec (uploadDocument snap) w in
  TwoPhase.analysis (store w') = TwoPhase.analysis (store w)
  /\ TwoPhase.images (store w') = TwoPhase.images (store w)
  /\ TwoPhase.currentPass (store w') = TwoPhase.currentPass (store w)
  /\ (present (TwoPhase.file snap) = true -> TwoPhase.loading (store w') = false).
Proof.
  unfold TwoPhase.uploadDocument. destruct (TwoPhase.file snap) as [f|].
  2: { cbn. repeat split. discriminate. }
  open_handlers. cbn. by_reply; cbn; try (repeat split; reflexivity).
  destruct (get_prop data "document_id"); cbn; [|repeat split; reflexivity].
  destruct (get_prop data "metadata"); cbn; repeat split; reflexivity.
Qed.

(** [request_analysis] always sends its request, built from the
    identifier of the snapshot. *)
Lemma request_analysis_sends snap passNumber w :
  sent (exec (request_analysis snap passNumber) w)
  = (sent w ++ [TwoPhase.analyze_request (TwoPhase.documentId snap) passNumber])%list.
Proof.
  unfold TwoPhase.request_analysis. open_handlers. cbn.
  by_reply; cbn; try reflexivity.
  destruct (get_prop data "analysis"); cbn;
    destruct (get_prop data "images") as [found|]; cbn; try reflexivity;
    destruct (truthy found); reflexivity.
Qed.

(** A failed request of [request_analysis]. *)
Lemma request_analysis_failure snap passNumber w :
  failed (backend (TwoPhase.analyze_request (TwoPhase.documentId snap) passNumber)) = true ->
  exists e,
    exec (request_analysis snap passNumber) w
    = mk_world (TwoPhase.mk_state (TwoPhase.file (store w)) (TwoPhase.documentId (store w))
                  (TwoPhase.analysis (store w)) (TwoPhase.images (store w)) false
                  (TwoPhase.currentPass (store w)) (TwoPhase.metadata (store w)))
               (sent w ++ [TwoPhase.analyze_request (TwoPhase.documentId snap) passNumber])
               (console w ++ [Error "Error analyzing paper:" e])
               (render_error w).
Proof.
  intros Hfailed. unfold TwoPhase.request_analysis. open_handlers. cbn.
  destruct (backend _) as [|[data|]]; try discriminate; cbn; eexists; reflexivity.
Qed.

(** An answered request of [request_analysis]: the state written. *)
Lemma request_analysis_success snap passNumber w data a found :
  backend (TwoPhase.analyze_request (TwoPhase.documentId snap) passNumber)
  = Responded (Some data) ->
  get_prop data "analysis" = Normal a ->
  get_prop data "images" = Normal found ->
  store (exec (request_analysis snap passNumber) w)
  = TwoPhase.mk_state (TwoPhase.file (store w)) (TwoPhase.documentId (store w))
      (<[TwoPhase.pass_key passNumber := a]> (TwoPhase.analysis (store w)))
      (if truthy found then found else TwoPhase.images (store w))
      false passNumber (TwoPhase.metadata (store w)).
Proof.
  intros Hreply Ha Hfound. unfold TwoPhase.request_analysis. open_handlers. cbn.
  rewrite Hreply. cbn. rewrite Ha. cbn. rewrite Hfound. cbn.
  destruct (truthy found); reflexivity.
Qed.

(** What [request_analysis] can do to the stored results: nothing, or
    write the entry of its own pass. *)
Lemma request_analysis_results snap passNumber w :
  let w' := exec (request_analysis snap passNumber) w in
  TwoPhase.analysis (store w') = TwoPhase.analysis (store w)
  \/ exists a, TwoPhase.analysis (store w')
               = <[TwoPhase.pass_key passNumber := a]> (TwoPhase.analysis (store w)).
Proof.
  unfold TwoPhase.request_analysis. open_handlers. cbn.
  by_reply; cbn; try now left.
  destruct data; cbn; try (now left); right; eexists; try reflexivity.
  destruct (truthy _); reflexivity.
Qed.

(** [analyzePaper] is [request_analysis], after an upload when the
    snapshot has a file and no identifier. *)
Lemma analyzePaper_run snap passNumber w :
  exec (analyzePaper snap passNumber) w = exec (request_analysis snap passNumber) w
  \/ (present (TwoPhase.file snap) = true
      /\ (exec (analyzePaper snap passNumber) w = exec (uploadDocument snap) w
          \/ exec (analyzePaper snap passNumber) w
             = exec (request_analysis snap passNumber) (exec (uploadDocument snap) w))).
Proof.
  unfold TwoPhase.analyzePaper.
  destruct (negb (truthy (TwoPhase.documentId snap)) && present (TwoPhase.file snap))
    eqn:Hupload; [|now left].
  right. apply andb_true_iff in Hupload as [_ Hfile]. split; [exact Hfile|].
  unfold exec, bind. destruct (uploadDocument snap w) as [[newDocId|e] w1] eqn:Hup; cbn.
  - destruct (truthy newDocId); cbn; [now right | now left].
  - now left.
Qed.

Lemma analyzePaper_results2 snap passNumber w :
  let w' := exec (analyzePaper snap passNumber) w in
  TwoPhase.analysis (store w') = TwoPhase.analysis (store w)
  \/ exists a, TwoPhase.analysis (store w')
               = <[TwoPhase.pass_key passNumber := a]> (TwoPhase.analysis (store w)).
Proof.
  cbn zeta. destruct (analyzePaper_run snap passNumber w) as [->|[_ [->| ->]]].
  - apply request_analysis_results.
  - left. apply uploadDocument_frame.
  - destruct (uploadDocument_frame snap w) as [Ha _]. cbn zeta in Ha. rewrite <- Ha.
    apply request_analysis_results.
Qed.

Lemma analyzePaper_frame2 snap n m w :
  n <> m ->
  TwoPhase.prop (TwoPhase.analysis (store (exec (analyzePaper snap n) w))) (TwoPhase.pass_key m)
  = TwoPhase.prop (TwoPhase.analysis (store w)) (TwoPhase.pass_key m).
Proof.
  intros Hnm. destruct (analyzePaper_results2 snap n w) as [->|[a ->]]; [reflexivity|].
  apply prop_insert_ne. intros Hkey. apply Hnm. exact (pass_key_inj _ _ Hkey).
Qed.

Lemma number_inj p q : number p = number q -> p = q.
Proof. destruct p, q; cbn; congruence. Qed.

Lemma click_frame2 p q w :
  p <> q ->
  TwoPhase.result q (store (click p w)) = TwoPhase.result q (store w).
Proof.
  intros Hpq. unfold TwoPhase.result, TwoPhase.click, TwoPhase.onClick.
  apply analyzePaper_frame2. intros Hn. apply Hpq. exact (number_inj _ _ Hn).
Qed.

Lemma analyzePaper_with_identifier snap passNumber :
  truthy (TwoPhase.documentId snap) = true ->
  analyzePaper snap passNumber = request_analysis snap passNumber.
Proof. unfold TwoPhase.analyzePaper. now intros ->. Qed.

(** A successful upload: the identifier goes to the store and is
    returned to the caller. *)
Lemma uploadDocument_success snap w f up id :
  TwoPhase.file snap = Some f ->
  backend (TwoPhase.upload_request f) = Responded (Some up) ->
  get_prop up "document_id" = Normal id ->
  exists md,
    uploadDocument snap w
    = (Normal id,
       mk_world (TwoPhase.mk_state (TwoPhase.file (store w)) id (TwoPhase.analysis (store w))
                   (TwoPhase.images (store w)) false (TwoPhase.currentPass (store w)) md)
                (sent w ++ [TwoPhase.upload_request f]) (console w) (render_error w)).
Proof.
  intros Hfile Hreply Hid. unfold TwoPhase.uploadDocument. rewrite Hfile.
  open_handlers. cbn. rewrite Hreply. cbn. rewrite Hid. cbn.
  destruct up; try discriminate; cbn; eexists; reflexivity.
Qed.

(** The first analysis of a document: the upload answers with an
    identifier, and the analysis request is still built from the
    identifier of the snapshot. *)
Lemma analyzePaper_after_upload snap passNumber w f up id :
  truthy (TwoPhase.documentId snap) = false ->
  TwoPhase.file snap = Some f ->
  backend (TwoPhase.upload_request f) = Responded (Some up) ->
  get_prop up "document_id" = Normal id ->
  truthy id = true ->
  sent (exec (analyzePaper snap passNumber) w)
  = (sent w ++ [TwoPhase.upload_request f;
                TwoPhase.analyze_request (TwoPhase.documentId snap) passNumber])%list.
Proof.
  intros Hno Hfile Hreply Hid Htruthy.
  destruct (uploadDocument_success snap w f up id Hfile Hreply Hid) as [md Hup].
  unfold TwoPhase.analyzePaper. rewrite Hno, Hfile. cbn [negb andb present].
  unfold exec at 1, bind. rewrite Hup, Htruthy. cbn [negb].
  fold (exec (request_analysis snap passNumber)
          (mk_world (TwoPhase.mk_state (TwoPhase.file (store w)) id
                       (TwoPhase.analysis (store w)) (TwoPhase.images (store w)) false
                       (TwoPhase.currentPass (store w)) md)
                    (sent w ++ [TwoPhase.upload_request f]) (console w) (render_error w))).
  rewrite request_analysis_sends. cbn [sent]. now rewrite <- app_assoc.
Qed.

(** A failed analysis request, seen from [analyzePaper]. *)
Lemma analyzePaper_failure2 snap passNumber w :
  failed (backend (TwoPhase.analyze_request (TwoPhase.documentId snap) passNumber)) = true ->
  let w' := exec (analyzePaper snap passNumber) w in
  TwoPhase.analysis (store w') = TwoPhase.analysis (store w)
  /\ TwoPhase.currentPass (store w') = TwoPhase.currentPass (store w)
  /\ TwoPhase.images (store w') = TwoPhase.images (store w)
  /\ TwoPhase.loading (store w') = false.
Proof.
  intros Hfailed. cbn zeta.
  destruct (analyzePaper_run snap passNumber w) as [->|[Hfile [->| ->]]].
  - destruct (request_analysis_failure snap passNumber w Hfailed) as [e ->]. now cbn.
  - destruct (uploadDocument_frame snap w) as (Ha & Hi & Hc & Hl). auto.
  - destruct (uploadDocument_frame snap w) as (Ha & Hi & Hc & Hl). cbn zeta in *.
    destruct (request_analysis_failure snap passNumber (exec (uploadDocument snap) w) Hfailed)
      as [e ->].
    now cbn.
Qed.

End TwoPhaseProperties.

(** ** The claims about the two components *)

Section Claims.

Import Client.

(** C1, as amended.  In the single-request component, activating the
    control of a pass whose result is stored sends no request: it only
    makes that pass the current one.  In the two-phase component the
    control runs [analyzePaper] in every case, and with a document
    identifier in the state one more analysis request is sent, stored
    result or not. *)
Theorem reactivation_of_stored_pass :
  (forall (backend : request -> reply) (p : pass) (w : world SingleRequest.state),
      SingleRequest.stored p (store w) = true ->
      let w' := SingleRequest.click backend p w in
      sent w' = sent w
      /\ store w' = SingleRequest.showing (number p) (store w)
      /\ console w' = console w
      /\ render_error w' = render_error w)
  /\ (forall (backend : request -> reply) (p : pass) (w : world TwoPhase.state),
        truthy (TwoPhase.documentId (store w)) = true ->
        sent (TwoPhase.click backend p w)
        = (sent w ++ [TwoPhase.analyze_request (TwoPhase.documentId (store w)) (number p)])%list).
Proof.
  split.
  - intros backend p w Hstored. cbn zeta.
    rewrite (click_stored1 backend p w Hstored). now cbn.
  - intros backend p w Hid. unfold TwoPhase.click, TwoPhase.onClick.
    rewrite (analyzePaper_with_identifier backend _ _ Hid).
    apply request_analysis_sends.
Qed.

(** C2, on the first pass of a session.  The upload answers with the
    identifier [abc] and the state receives it, but the analysis
    request that follows goes to [/analyze/paper/null]: the template
    literal reads the [documentId] of the render in which the button
    was clicked, which is still [null]. *)
Theorem first_analysis_ignores_uploaded_identifier :
  Scenario.serving (TwoPhase.upload_request Scenario.paper)
  = Responded (Some (JObj [("document_id", JStr "abc");
                           ("metadata", JObj [("pages", JNum 12)])]))
  /\ map url (sent (TwoPhase.click Scenario.serving First Scenario.picked2))
     = [ "http://localhost:8000/upload/paper";
         "http://localhost:8000/analyze/paper/null?pass_number=1" ]
  /\ TwoPhase.documentId (store (TwoPhase.click Scenario.serving First Scenario.picked2))
     = JStr "abc".
Proof. repeat split; vm_compute; reflexivity. Qed.

(** C3. Whatever the state, selecting a file stores it, resets the
    results of all three passes and makes pass 1 the current one; the
    two-phase component also empties the image list and clears the
    metadata and the document identifier. *)
Theorem select_file_resets :
  (forall (picked : option File) (w : world SingleRequest.state),
      let s' := store (SingleRequest.select_file picked w) in
      SingleRequest.file s' = picked
      /\ SingleRequest.analysis s' = SingleRequest.no_results
      /\ (forall p, SingleRequest.stored p s' = false)
      /\ SingleRequest.currentPass s' = 1)
  /\ (forall (picked : option File) (w : world TwoPhase.state),
        let s' := store (TwoPhase.select_file picked w) in
        TwoPhase.file s' = picked
        /\ TwoPhase.analysis s' = TwoPhase.no_results
        /\ (forall p, TwoPhase.result p s' = JUndefined /\ TwoPhase.stored p s' = false)
        /\ TwoPhase.images s' = JArr []
        /\ TwoPhase.metadata s' = JNull
        /\ TwoPhase.documentId s' = JNull
        /\ TwoPhase.currentPass s' = 1).
Proof.
  split; intros picked w; cbn zeta.
  - repeat split. intros p. now destruct p.
  - repeat split; unfold TwoPhase.stored, TwoPhase.result; cbn [TwoPhase.select_file];
      change (TwoPhase.analysis (store (TwoPhase.select_file picked w)))
        with TwoPhase.no_results;
      now rewrite no_results_has_no_pass.
Qed.

(** C5, as amended.  An analysis request for pass M, answered or not,
    leaves the stored result of every other pass N as it was, in both
    components, and selecting a file clears the results of all passes.
    In the single-request component no pass control takes a stored
    result away.  In the two-phase component, activating pass N again
    overwrites its result with the [analysis] member of the new
    response, [undefined] if there is none. *)
Theorem stored_results_frame :
  (forall (backend : request -> reply) (snap : SingleRequest.state) (passNumber : Z)
          (q : pass) (w : world SingleRequest.state),
      number q <> passNumber ->
      SingleRequest.result q (store (exec (SingleRequest.analyzePaper backend snap passNumber) w))
      = SingleRequest.result q (store w))
  /\ (forall (backend : request -> reply) (snap : TwoPhase.state) (passNumber : Z)
            (q : pass) (w : world TwoPhase.state),
        number q <> passNumber ->
        TwoPhase.result q (store (exec (TwoPhase.analyzePaper backend snap passNumber) w))
        = TwoPhase.result q (store w))
  /\ (forall (backend : request -> reply) (p q : pass) (w : world SingleRequest.state),
        SingleRequest.stored q (store w) = true ->
        SingleRequest.stored q (store (SingleRequest.click backend p w)) = true)
  /\ (forall (picked : option File) (q : pass),
        (forall w, SingleRequest.stored q (store (SingleRequest.select_file picked w)) = false)
        /\ (forall w, TwoPhase.stored q (store (TwoPhase.select_file picked w)) = false))
  /\ (forall (backend : request -> reply) (p : pass) (w : world TwoPhase.state) fields,
        truthy (TwoPhase.documentId (store w)) = true ->
        backend (TwoPhase.analyze_request (TwoPhase.documentId (store w)) (number p))
        = Responded (Some (JObj fields)) ->
        TwoPhase.result p (store (TwoPhase.click backend p w)) = assoc "analysis" fields).
Proof.
  split; [|split; [|split; [|split]]].
  - intros backend snap passNumber q w. apply analyzePaper_frame1.
  - intros backend snap passNumber q w Hq. unfold TwoPhase.result.
    apply analyzePaper_frame2. congruence.
  - intros backend p q w. apply click_keeps_stored1.
  - intros picked q. split; intros w.
    + now destruct q.
    + unfold TwoPhase.stored, TwoPhase.result.
      change (TwoPhase.analysis (store (TwoPhase.select_file picked w)))
        with TwoPhase.no_results.
      now rewrite no_results_has_no_pass.
  - intros backend p w fields Hid Hreply.
    unfold TwoPhase.click, TwoPhase.onClick.
    rewrite (analyzePaper_with_identifier backend _ _ Hid).
    unfold TwoPhase.result.
    rewrite (request_analysis_success backend _ _ w _ _ _ Hreply eq_refl eq_refl).
    cbn [TwoPhase.analysis]. apply prop_insert_eq.
Qed.

(** C6. In every state of either component, the control of pass N is
    enabled exactly when a file is present, [loading] is false, and N
    is 1 or the result of pass N-1 is stored. *)
Theorem pass_control_enabled_iff (p : pass) :
  (forall s : SingleRequest.state,
      SingleRequest.button_disabled p s = false
      <-> present (SingleRequest.file s) = true
          /\ SingleRequest.loading s = false
          /\ (number p = 1
              \/ exists q, number q = number p - 1 /\ SingleRequest.stored q s = true))
  /\ (forall s : TwoPhase.state,
        TwoPhase.button_disabled p s = false
        <-> present (TwoPhase.file s) = true
            /\ TwoPhase.loading s = false
            /\ (number p = 1
                \/ exists q, number q = number p - 1 /\ TwoPhase.stored q s = true)).
Proof.
  split; intros s.
  - unfold SingleRequest.button_disabled, SingleRequest.stored.
    destruct p; cbn [number]; rewrite ?orb_false_iff, ?negb_false_iff; split.
    + intros [Hf Hl]. auto.
    + intros (Hf & Hl & _). auto.
    + intros [[Hf Hr] Hl]. repeat split; auto. right. exists First. now split.
    + intros (Hf & Hl & [Hone|[q [Hq Hr]]]); [discriminate|].
      destruct q; cbn in Hq; try lia. auto.
    + intros [[Hf Hr] Hl]. repeat split; auto. right. exists Second. now split.
    + intros (Hf & Hl & [Hone|[q [Hq Hr]]]); [discriminate|].
      destruct q; cbn in Hq; try lia. auto.
  - unfold TwoPhase.button_disabled, TwoPhase.stored, TwoPhase.result.
    destruct p; cbn [number]; rewrite ?orb_false_iff, ?negb_false_iff; split.
    + intros [Hf Hl]. auto.
    + intros (Hf & Hl & _). auto.
    + intros [[Hf Hr] Hl]. repeat split; auto. right. exists First. now split.
    + intros (Hf & Hl & [Hone|[q [Hq Hr]]]); [discriminate|].
      destruct q; cbn in Hq; try lia. auto.
    + intros [[Hf Hr] Hl]. repeat split; auto. right. exists Second. now split.
    + intros (Hf & Hl & [Hone|[q [Hq Hr]]]); [discriminate|].
      destruct q; cbn in Hq; try lia. auto.
Qed.

End Claims.

Section FailureAndImages.

Import Client.
Variable backend : request -> reply.

(** C7. When the analysis request fails, by a rejected [fetch] or by a
    body that is not JSON, the stored results and the current pass are
    what they were, [loading] is false, the console receives an
    ["Error analyzing paper:"] entry, and the page shows the same
    results as before: nothing tells the user.  This holds for
    [analyzePaper] of the single-request component, for the request
    step of the two-phase component, and for its [analyzePaper] as a
    whole. *)
Theorem failed_analysis_request_is_silent :
  (forall (snap : SingleRequest.state) (passNumber : Z) (w : world SingleRequest.state) f,
      SingleRequest.file snap = Some f ->
      failed (backend (SingleRequest.analyze_request f passNumber)) = true ->
      let w' := exec (SingleRequest.analyzePaper backend snap passNumber) w in
      SingleRequest.analysis (store w') = SingleRequest.analysis (store w)
      /\ SingleRequest.currentPass (store w') = SingleRequest.currentPass (store w)
      /\ SingleRequest.loading (store w') = false
      /\ (exists e, console w' = (console w ++ [Log "Analyzing paper for pass:";
                                                Error "Error analyzing paper:" e])%list)
      /\ SingleRequest.panels (store w') = SingleRequest.panels (store w))
  /\ (forall (snap : TwoPhase.state) (passNumber : Z) (w : world TwoPhase.state),
        failed (backend (TwoPhase.analyze_request (TwoPhase.documentId snap) passNumber)) = true ->
        let w' := exec (TwoPhase.request_analysis backend snap passNumber) w in
        TwoPhase.analysis (store w') = TwoPhase.analysis (store w)
        /\ TwoPhase.currentPass (store w') = TwoPhase.currentPass (store w)
        /\ TwoPhase.loading (store w') = false
        /\ (exists e, console w' = (console w ++ [Error "Error analyzing paper:" e])%list)
        /\ TwoPhase.panel (store w') = TwoPhase.panel (store w)
        /\ TwoPhase.images (store w') = TwoPhase.images (store w))
  /\ (forall (snap : TwoPhase.state) (passNumber : Z) (w : world TwoPhase.state),
        failed (backend (TwoPhase.analyze_request (TwoPhase.documentId snap) passNumber)) = true ->
        let w' := exec (TwoPhase.analyzePaper backend snap passNumber) w in
        TwoPhase.analysis (store w') = TwoPhase.analysis (store w)
        /\ TwoPhase.currentPass (store w') = TwoPhase.currentPass (store w)
        /\ TwoPhase.loading (store w') = false
        /\ TwoPhase.panel (store w') = TwoPhase.panel (store w)
        /\ TwoPhase.images (store w') = TwoPhase.images (store w)).
Proof.
  split; [|split].
  - intros snap passNumber w f Hfile Hfailed. cbn zeta.
    destruct (analyzePaper_failure1 backend snap passNumber w f Hfile Hfailed) as [e ->].
    cbn. repeat split. now exists e.
  - intros snap passNumber w Hfailed. cbn zeta.
    destruct (request_analysis_failure backend snap passNumber w Hfailed) as [e ->].
    cbn. repeat split. now exists e.
  - intros snap passNumber w Hfailed.
    destruct (analyzePaper_failure2 backend snap passNumber w Hfailed) as (Ha & Hc & Hi & Hl).
    cbn zeta in *. repeat split; auto.
    unfold TwoPhase.panel. now rewrite Ha, Hc.
Qed.

(** C9, as amended.  After an answered analysis request of the
    two-phase component, the stored image list is the [images] member
    of the response when that member is there (truthy), whatever list
    was stored before; when the response has no such member the
    stored list stays. *)
Theorem images_replaced_when_present
    (snap : TwoPhase.state) (passNumber : Z) (w : world TwoPhase.state) (data found : value) :
  backend (TwoPhase.analyze_request (TwoPhase.documentId snap) passNumber)
  = Responded (Some data) ->
  get_prop data "images" = Normal found ->
  TwoPhase.images (store (exec (TwoPhase.request_analysis backend snap passNumber) w))
  = (if truthy found then found else TwoPhase.images (store w))
  /\ (truthy (TwoPhase.documentId snap) = true ->
      TwoPhase.images (store (exec (TwoPhase.analyzePaper backend snap passNumber) w))
      = (if truthy found then found else TwoPhase.images (store w))).
Proof.
  intros Hreply Hfound.
  assert (Ha : exists a, get_prop data "analysis" = Normal a).
  { destruct data; try discriminate; cbn; eauto. }
  destruct Ha as [a Ha].
  pose proof (request_analysis_success backend snap passNumber w data a found
                Hreply Ha Hfound) as Hstore.
  split.
  - now rewrite Hstore.
  - intros Hid. rewrite (analyzePaper_with_identifier backend _ _ Hid). now rewrite Hstore.
Qed.

End FailureAndImages.

(** ** The claims at concrete sessions *)

(** C1 as stated fails in the two-phase component: pass 1 is stored,
    its control is activated again, and a third request goes out. *)
Lemma two_phase_reactivation_refetches :
  TwoPhase.stored First (Client.store Scenario.analysed2) = true
  /\ List.length (Client.sent Scenario.analysed2) = 2%nat
  /\ List.length (Client.sent (TwoPhase.click Scenario.serving First Scenario.analysed2)) = 3%nat.
Proof. repeat split; vm_compute; reflexivity. Qed.

Lemma reactivation_of_stored_pass_witness :
  Client.sent (SingleRequest.click Scenario.serving First Scenario.analysed1)
  = Client.sent Scenario.analysed1.
Proof.
  apply (proj1 reactivation_of_stored_pass Scenario.serving First Scenario.analysed1).
  reflexivity.
Defined.

(** C5 as stated fails in the two-phase component: with pass 1 stored,
    activating pass 1 again against a backend that answers with an
    error body leaves no result for pass 1, and no file was selected. *)
Lemma two_phase_rerun_drops_result :
  TwoPhase.stored First (Client.store Scenario.analysed2) = true
  /\ TwoPhase.result First
       (Client.store (TwoPhase.click Scenario.not_found First Scenario.analysed2))
     = JUndefined
  /\ TwoPhase.stored First
       (Client.store (TwoPhase.click Scenario.not_found First Scenario.analysed2))
     = false.
Proof. repeat split; vm_compute; reflexivity. Qed.

Lemma stored_results_frame_witness :
  SingleRequest.result First
    (Client.store (Client.exec (SingleRequest.analyzePaper Scenario.serving
                                  (Client.store Scenario.analysed1) 2) Scenario.analysed1))
  = SingleRequest.result First (Client.store Scenario.analysed1)
  /\ TwoPhase.result First
       (Client.store (TwoPhase.click Scenario.serving First Scenario.analysed2))
     = Scenario.summary.
Proof.
  split.
  - apply (proj1 stored_results_frame Scenario.serving (Client.store Scenario.analysed1) 2
             First Scenario.analysed1).
    discriminate.
  - apply (proj2 (proj2 (proj2 (proj2 stored_results_frame)))
             Scenario.serving First Scenario.analysed2
             [("analysis", Scenario.summary); ("images", JArr [Scenario.figure])]);
      reflexivity.
Defined.

Lemma failed_analysis_request_is_silent_witness :
  SingleRequest.analysis
    (Client.store (Client.exec (SingleRequest.analyzePaper Scenario.offline
                                  (Client.store Scenario.analysed1) 2) Scenario.analysed1))
  = SingleRequest.analysis (Client.store Scenario.analysed1)
  /\ TwoPhase.loading
       (Client.store (Client.exec (TwoPhase.request_analysis Scenario.garbled
                                     (Client.store Scenario.analysed2) 2) Scenario.analysed2))
     = false.
Proof.
  split.
  - apply (proj1 (failed_analysis_request_is_silent Scenario.offline)
             (Client.store Scenario.analysed1) 2 Scenario.analysed1 Scenario.paper);
      reflexivity.
  - apply (proj1 (proj2 (failed_analysis_request_is_silent Scenario.garbled))
             (Client.store Scenario.analysed2) 2 Scenario.analysed2).
    reflexivity.
Defined.

(** C9 as stated fails: the response to pass 2 has no [images] member,
    and the figure stored with pass 1 is still the stored list. *)
Lemma images_kept_without_images_member :
  Scenario.serving_text_only (TwoPhase.analyze_request (JStr "abc") 2)
  = Client.Responded (Some (JObj [("analysis", Scenario.summary)]))
  /\ get_prop (JObj [("analysis", Scenario.summary)]) "images" = Normal JUndefined
  /\ TwoPhase.images (Client.store Scenario.analysed2) = JArr [Scenario.figure]
  /\ TwoPhase.images
       (Client.store (TwoPhase.click Scenario.serving_text_only Second Scenario.analysed2))
     = JArr [Scenario.figure].
Proof. repeat split; vm_compute; reflexivity. Qed.

Lemma images_replaced_when_present_witness :
  TwoPhase.images
    (Client.store (Client.exec (TwoPhase.request_analysis Scenario.serving
                                  (Client.store Scenario.analysed2) 2) Scenario.analysed2))
  = JArr [Scenario.figure].
Proof.
  apply (proj1 (images_replaced_when_present Scenario.serving
                  (Client.store Scenario.analysed2) 2 Scenario.analysed2
                  (JObj [("analysis", Scenario.summary); ("images", JArr [Scenario.figure])])
                  (JArr [Scenario.figure]) eq_refl eq_refl)).
Defined.

Lemma analyze_without_file_is_noop_witness :
  SingleRequest.analyzePaper Scenario.serving SingleRequest.initial 1
    (Scenario.fresh SingleRequest.initial)
  = (Normal tt, Scenario.fresh SingleRequest.initial).
Proof.
  apply (analyze_without_file_is_noop Scenario.serving SingleRequest.initial 1).
  reflexivity.
Defined.

(** * Further properties of the code *)

(** ** The renderer on payloads of any shape *)

Section RendererShapes.

Variable JSON_parse : string -> option value.
Variable JSON_stringify : value -> string.

Local Abbreviation renderAnalysisContent := (Renderer.renderAnalysisContent JSON_parse JSON_stringify).
Local Abbreviation render_try := (Renderer.render_try JSON_parse JSON_stringify).
Local Abbreviation render_section := (Renderer.render_section JSON_stringify).
Local Abbreviation spec_section := (Renderer.spec_section JSON_stringify).

(** The heading of a key. *)
Definition label (key : string) : string := toUpperCase (underscores_to_spaces key).

Lemma null_or_not (v : value) : {v = JNull} + {v <> JNull}.
Proof. destruct v; (now left) || (right; discriminate). Qed.

Lemma null_among_or_not (l : list value) : In JNull l \/ ~ In JNull l.
Proof.
  induction l as [|v rest [IH|IH]]; [now right | left; now right |].
  destruct (null_or_not v) as [->|Hv]; [left; now left|].
  right. intros [Heq|Hin]; [congruence | exact (IH Hin)].
Qed.

(** The callback throws on [null] and on nothing else. *)
Lemma render_section_null k : render_section (k, JNull) = Throw TypeError.
Proof. reflexivity. Qed.

Lemma render_section_not_null k v :
  v <> JNull -> render_section (k, v) = Normal (spec_section (k, v)).
Proof.
  intros Hv. destruct v; try reflexivity; [congruence|].
  cbn. now rewrite (map_ext _ _ (render_field_spec JSON_stringify)).
Qed.

Lemma sections_without_null es :
  ~ In JNull (map snd es) ->
  map_throwing render_section es = Normal (map spec_section es).
Proof.
  induction es as [|[k v] rest IH]; intros Hnone; [reflexivity|].
  cbn [map_throwing]. rewrite render_section_not_null.
  - rewrite IH; [reflexivity|]. intros Hin. apply Hnone. now right.
  - intros ->. apply Hnone. now left.
Qed.

Lemma sections_with_null es :
  In JNull (map snd es) -> exists e, map_throwing render_section es = Throw e.
Proof.
  induction es as [|[k v] rest IH]; intros Hin; [destruct Hin|].
  cbn [map_throwing]. destruct (null_or_not v) as [->|Hv].
  - exists TypeError. reflexivity.
  - rewrite (render_section_not_null k v Hv). cbn [cbind].
    destruct Hin as [Heq|Hin]; [cbn in Heq; congruence|].
    destruct (IH Hin) as [e ->]. now exists e.
Qed.

(** What [render_try] does once the payload is parsed. *)
Definition render_parsed (parsed : value) : completion Renderer.element :=
  cbind (entries parsed) (fun es =>
  cbind (map_throwing render_section es) (fun sections =>
  Normal (Renderer.AnalysisContent sections))).

Lemma render_parsed_placeholder parsed :
  (exists e, render_parsed parsed = Throw e)
  <-> parsed = JNull \/ parsed = JUndefined
      \/ exists es, entries parsed = Normal es /\ In JNull (map snd es).
Proof.
  unfold render_parsed. split.
  - intros [e He]. destruct (entries parsed) as [es|e'] eqn:Hes.
    + right. right. exists es. split; [reflexivity|].
      destruct (null_among_or_not (map snd es)) as [Hin|Hnone]; [exact Hin|].
      cbn [cbind] in He. rewrite (sections_without_null es Hnone) in He. discriminate.
    + destruct parsed; try discriminate; auto.
  - intros [->|[->|[es [Hes Hin]]]]; [now exists TypeError | now exists TypeError |].
    rewrite Hes. cbn [cbind]. destruct (sections_with_null es Hin) as [e ->]. now exists e.
Qed.

(** C8, at a payload with a [null] scalar.  [{"summary": "ok", "doi":
    null}] is well-formed and the rendering the specification describes
    has a text block for each of its two keys, but the renderer returns
    the placeholder for the whole payload: [typeof null] is ["object"],
    so the [null] goes to [Object.entries], which throws.  One level
    down the same test sends a [null] to [JSON.stringify] and the line
    is rendered; and every object without a [null] value is rendered as
    the specification describes. *)
Theorem null_section_value_is_not_rendered :
  Renderer.well_formed Renderer.payload_with_null = true
  /\ map Renderer.content (map spec_section Renderer.payload_with_null)
     = [Renderer.Paragraph (JStr "ok"); Renderer.Paragraph JNull]
  /\ renderAnalysisContent (JObj Renderer.payload_with_null)
     = Renderer.Placeholder "Error rendering analysis"
  /\ Renderer.render_field JSON_stringify ("doi", JNull) = ("doi", JStr (JSON_stringify JNull))
  /\ (forall fields : list (string * value),
        ~ In JNull (map snd fields) ->
        renderAnalysisContent (JObj fields)
        = Renderer.AnalysisContent (map spec_section fields)).
Proof.
  repeat (split; [reflexivity|]).
  intros fields Hnone.
  unfold Renderer.renderAnalysisContent, Renderer.render_try. cbn [cbind entries].
  now rewrite (sections_without_null fields Hnone).
Qed.

(** The payload the [try] block works on: the parse of a text, the
    value itself otherwise; [None] when [JSON.parse] throws. *)
Definition parsed_of (content : value) : option value :=
  match content with
  | JStr s => JSON_parse s
  | _ => Some content
  end.

Lemma render_try_parsed content :
  render_try content
  = match parsed_of content with
    | Some parsed => render_parsed parsed
    | None => Throw SyntaxError
    end.
Proof.
  unfold Renderer.render_try, parsed_of, Renderer.parse.
  destruct content; try reflexivity. now destruct (JSON_parse s).
Qed.

Lemma placeholder_iff_throw content :
  renderAnalysisContent content = Renderer.error_placeholder
  <-> exists e, render_try content = Throw e.
Proof.
  unfold Renderer.renderAnalysisContent. split.
  - destruct (render_try content) as [tree|e] eqn:Htry; [|now exists e].
    destruct (render_try_returns_tree _ _ _ _ Htry) as [sections ->]. discriminate.
  - now intros [e ->].
Qed.

(** X1. The placeholder is returned exactly when the text does not
    parse, or the payload is [null] or [undefined], or one of the
    entries of the payload has the value [null]; every other payload
    gives a tree. *)
Theorem placeholder_exactly_when content :
  renderAnalysisContent content = Renderer.error_placeholder
  <-> match parsed_of content with
      | None => True
      | Some parsed =>
          parsed = JNull \/ parsed = JUndefined
          \/ exists es, entries parsed = Normal es /\ In JNull (map snd es)
      end.
Proof.
  rewrite placeholder_iff_throw, render_try_parsed.
  destruct (parsed_of content) as [parsed|].
  - apply render_parsed_placeholder.
  - split; [trivial | now exists SyntaxError].
Qed.

(** X2. A text that parses to anything but a string is rendered as
    the value it parses to. *)
Theorem text_payload_rendered_as_parsed s v :
  JSON_parse s = Some v ->
  typeof v <> TyString ->
  renderAnalysisContent (JStr s) = renderAnalysisContent v.
Proof.
  intros Hparse Hv. unfold Renderer.renderAnalysisContent.
  rewrite !render_try_parsed. cbn [parsed_of]. rewrite Hparse.
  destruct v; try reflexivity. now destruct Hv.
Qed.

(** X3. Whenever a tree is returned, whatever the shapes of the
    values, it is the section of each entry of the payload in entry
    order, and no entry has the value [null]. *)
Theorem tree_is_section_per_entry content sections :
  renderAnalysisContent content = Renderer.AnalysisContent sections ->
  exists parsed es,
    parsed_of content = Some parsed
    /\ entries parsed = Normal es
    /\ ~ In JNull (map snd es)
    /\ sections = map spec_section es.
Proof.
  unfold Renderer.renderAnalysisContent. rewrite render_try_parsed.
  destruct (parsed_of content) as [parsed|]; [|discriminate].
  unfold render_parsed. destruct (entries parsed) as [es|] eqn:Hes; [|discriminate].
  cbn [cbind]. intros Htree. exists parsed, es.
  destruct (null_among_or_not (map snd es)) as [Hin|Hnone].
  - destruct (sections_with_null es Hin) as [e He]. rewrite He in Htree. discriminate.
  - rewrite (sections_without_null es Hnone) in Htree. cbn in Htree.
    injection Htree as <-. auto.
Qed.

End RendererShapes.

(** The renderer on a payload without [null], with underscores in its
    keys. *)
Lemma null_section_value_is_not_rendered_witness :
  Renderer.renderAnalysisContent Renderer.parse_table JSON_stringify
    (JObj [("key_points", JArr [JStr "linear cost"]);
           ("scores", JObj [("max_f1", JNum 91); ("per_task", JArr [JNum 1])])])
  = Renderer.AnalysisContent
      [ Renderer.mk_section "KEY POINTS" (Renderer.ItemList [JStr "linear cost"]);
        Renderer.mk_section "SCORES"
          (Renderer.FieldList [("max f1", JNum 91); ("per task", JStr "[1]")]) ].
Proof.
  apply (proj2 (proj2 (proj2 (proj2
           (null_section_value_is_not_rendered Renderer.parse_table JSON_stringify))))).
  cbn. intros [H|[H|[]]]; discriminate H.
Defined.

Lemma text_payload_rendered_as_parsed_witness :
  Renderer.renderAnalysisContent Renderer.parse_table JSON_stringify (JStr "[]")
  = Renderer.renderAnalysisContent Renderer.parse_table JSON_stringify (JArr []).
Proof.
  apply (text_payload_rendered_as_parsed Renderer.parse_table JSON_stringify "[]" (JArr []));
    [reflexivity | discriminate].
Defined.

Lemma tree_is_section_per_entry_witness :
  exists parsed es,
    parsed_of Renderer.parse_table (JArr [JStr "a_b"; JArr [JNum 1]]) = Some parsed
    /\ entries parsed = Normal es
    /\ ~ In JNull (map snd es)
    /\ [ Renderer.mk_section "0" (Renderer.Paragraph (JStr "a_b"));
         Renderer.mk_section "1" (Renderer.ItemList [JNum 1]) ]
       = map (Renderer.spec_section JSON_stringify) es.
Proof.
  apply (tree_is_section_per_entry Renderer.parse_table JSON_stringify
           (JArr [JStr "a_b"; JArr [JNum 1]])).
  reflexivity.
Defined.

(** ** Headings *)

Lemma heading_char_ascii (c : ascii) :
  (N_of_ascii c < 128)%N ->
  (N_of_ascii (upper_char (if Ascii.eqb c "_"%char then " "%char else c)) < 128)%N.
Proof.
  destruct c as [[] [] [] [] [] [] [] []]; intros H; vm_compute in H |- *;
    (reflexivity || discriminate H).
Qed.

Lemma heading_char_shape (c : ascii) :
  let c' := upper_char (if Ascii.eqb c "_"%char then " "%char else c) in
  c' <> "_"%char
  /\ ((97 <=? N_of_ascii c') && (N_of_ascii c' <=? 122))%N = false
  /\ upper_char (if Ascii.eqb c' "_"%char then " "%char else c') = c'.
Proof.
  destruct c as [[] [] [] [] [] [] [] []]; cbv zeta;
    (split; [vm_compute; discriminate | split; vm_compute; reflexivity]).
Qed.

(** A string of ASCII characters. *)
Definition is_ascii (s : string) : Prop :=
  forall c, In c (list_ascii_of_string s) -> (N_of_ascii c < 128)%N.

(** X4. For a key of ASCII characters, the heading has the length of
    the key, holds no underscore and no letter a-z, is again ASCII,
    and computing the heading of a heading changes nothing. *)
Theorem heading_shape (key : string) :
  is_ascii key ->
  String.length (label key) = String.length key
  /\ (forall c, In c (list_ascii_of_string (label key)) ->
                c <> "_"%char /\ ~ (97 <= N_of_ascii c <= 122)%N)
  /\ is_ascii (label key)
  /\ label (label key) = label key.
Proof.
  unfold label, toUpperCase, underscores_to_spaces, is_ascii.
  induction key as [|a rest IH]; cbn [map_chars]; intros Hascii.
  - split; [reflexivity | split; [intros c [] | split; [intros c [] | reflexivity]]].
  - destruct IH as (IHlen & IHchars & IHascii & IHidem).
    { intros c Hc. apply Hascii. now right. }
    destruct (heading_char_shape a) as (Hus & Hlow & Hfix). cbv zeta in *.
    cbn [String.length list_ascii_of_string]. split; [|split; [|split]].
    + now rewrite IHlen.
    + intros c' [<-|Hin]; [|now apply IHchars].
      split; [exact Hus|]. intros [Hlo Hhi].
      apply N.leb_le in Hlo, Hhi. rewrite Hlo, Hhi in Hlow. discriminate.
    + intros c' [<-|Hin]; [|now apply IHascii].
      assert (Ha : (N_of_ascii a < 128)%N) by (apply Hascii; now left).
      apply heading_char_ascii. exact Ha.
    + now rewrite Hfix, IHidem.
Qed.

Lemma heading_shape_witness :
  String.length (label "key_findings") = 12%nat
  /\ label "key_findings" = "KEY FINDINGS".
Proof.
  split; [|reflexivity].
  apply (heading_shape "key_findings").
  intros c Hc. cbn in Hc.
  repeat (destruct Hc as [<-|Hc]; [reflexivity|]). destruct Hc.
Defined.

(** ** The figure cards *)

(** X5. For every figure that is not [null] or [undefined] the card is
    built without a throw: its [src] is the data URL of the [image]
    member, its [alt] is the caption when the caption is truthy and
    ["Paper figure"] otherwise, so the [alt] is never empty, and the
    caption paragraph is there exactly when the caption is truthy. *)
Theorem figure_card (imageData : value) :
  imageData <> JNull ->
  imageData <> JUndefined ->
  exists image caption c,
    get_prop imageData "image" = Normal image
    /\ get_prop imageData "caption" = Normal caption
    /\ Figures.ImageDisplay imageData = Normal c
    /\ Figures.src c = "data:image/png;base64," +:+ to_string image
    /\ truthy (Figures.alt c) = true
    /\ (if truthy caption
        then Figures.alt c = caption /\ Figures.caption_slot c = Figures.Shown caption
        else Figures.alt c = JStr "Paper figure"
             /\ Figures.caption_slot c = Figures.Skipped caption).
Proof.
  intros Hnull Hundef. unfold Figures.ImageDisplay.
  destruct (get_prop imageData "image") as [image|] eqn:Himage;
    [|destruct imageData; discriminate || congruence].
  destruct (get_prop imageData "caption") as [caption|] eqn:Hcaption;
    [|destruct imageData; discriminate || congruence].
  destruct (get_prop imageData "page_number") as [page|] eqn:Hpage;
    [|destruct imageData; discriminate || congruence].
  destruct (get_prop imageData "reference") as [reference|] eqn:Hreference;
    [|destruct imageData; discriminate || congruence].
  exists image, caption. eexists. cbn [cbind].
  repeat (split; [reflexivity|]). cbn.
  destruct (truthy caption) eqn:Hc; auto.
Qed.

Lemma figure_card_witness :
  exists image caption c,
    get_prop Scenario.figure "image" = Normal image
    /\ get_prop Scenario.figure "caption" = Normal caption
    /\ Figures.ImageDisplay Scenario.figure = Normal c
    /\ Figures.src c = "data:image/png;base64," +:+ to_string image
    /\ truthy (Figures.alt c) = true
    /\ (if truthy caption
        then Figures.alt c = caption /\ Figures.caption_slot c = Figures.Shown caption
        else Figures.alt c = JStr "Paper figure"
             /\ Figures.caption_slot c = Figures.Skipped caption).
Proof. apply (figure_card Scenario.figure); discriminate. Defined.

Definition is_figure (v : value) : Prop := v <> JNull /\ v <> JUndefined.

Lemma ImageDisplay_throws (imageData : value) :
  ~ is_figure imageData -> Figures.ImageDisplay imageData = Throw TypeError.
Proof.
  unfold is_figure. intros Hbad.
  destruct imageData; try reflexivity; exfalso; apply Hbad; split; discriminate.
Qed.

Lemma ImageDisplay_returns (imageData : value) :
  is_figure imageData -> exists c, Figures.ImageDisplay imageData = Normal c.
Proof.
  intros [Hnull Hundef]. destruct imageData; try congruence; eexists; reflexivity.
Qed.

(** X6. The figures panel: when every item of the image list is a
    figure, there is one card per item, in the order of the list; an
    item that is [null] or [undefined] makes the panel throw a
    [TypeError] instead. *)
Theorem one_card_per_figure (items : list value) :
  match Figures.cards items with
  | Normal cs =>
      Forall is_figure items
      /\ Forall2 (fun item c => Figures.ImageDisplay item = Normal c) items cs
  | Throw e => e = TypeError /\ Exists (fun item => ~ is_figure item) items
  end.
Proof.
  unfold Figures.cards.
  induction items as [|item rest IH]; cbn [map_throwing]; [split; constructor|].
  assert (Hdec : is_figure item \/ ~ is_figure item).
  { unfold is_figure. destruct item; (left; split; discriminate) || (right; intros [? ?]; congruence). }
  destruct Hdec as [Hok|Hbad].
  - destruct (ImageDisplay_returns item Hok) as [c Hc]. rewrite Hc. cbn [cbind].
    destruct (map_throwing Figures.ImageDisplay rest) as [cs|e]; cbn [cbind].
    + destruct IH as [Hall Hcards]. split; constructor; assumption.
    + destruct IH as [He Hex]. split; [exact He | now constructor 2].
  - rewrite (ImageDisplay_throws item Hbad). cbn [cbind]. split; [reflexivity | now constructor 1].
Qed.

(** ** The single-request component: runs and sessions *)

Section SingleRequestRuns.

Import Client.
Variable backend : request -> reply.

Local Abbreviation analyzePaper := (SingleRequest.analyzePaper backend).
Local Abbreviation click := (SingleRequest.click backend).

Lemma analyzePaper_guard1 snap passNumber w :
  SingleRequest.file snap = None -> exec (analyzePaper snap passNumber) w = w.
Proof. unfold SingleRequest.analyzePaper. now intros ->. Qed.

(** With a file, [analyzePaper] sends exactly its one request. *)
Lemma analyzePaper_sends1 snap passNumber w f :
  SingleRequest.file snap = Some f ->
  sent (exec (analyzePaper snap passNumber) w)
  = (sent w ++ [SingleRequest.analyze_request f passNumber])%list.
Proof.
  intros Hfile. unfold SingleRequest.analyzePaper. rewrite Hfile.
  open_handlers. cbn. by_reply; cbn; try reflexivity.
  now destruct (SingleRequest.newAnalysis passNumber data _).
Qed.

(** An answered request of [analyzePaper]: the state written. *)
Lemma analyzePaper_answered1 snap passNumber w f data :
  SingleRequest.file snap = Some f ->
  backend (SingleRequest.analyze_request f passNumber) = Responded (Some data) ->
  store (exec (analyzePaper snap passNumber) w)
  = SingleRequest.mk_state (SingleRequest.file (store w))
      (match SingleRequest.newAnalysis passNumber data (SingleRequest.analysis (store w)) with
       | Normal a => a
       | Throw _ => SingleRequest.analysis (store w)
       end)
      false passNumber.
Proof.
  intros Hfile Hreply. unfold SingleRequest.analyzePaper. rewrite Hfile.
  open_handlers. cbn. rewrite Hreply. cbn.
  now destruct (SingleRequest.newAnalysis passNumber data _).
Qed.

(** A click on a pass without a stored result runs [analyzePaper]. *)
Lemma click_not_stored1 p w :
  SingleRequest.stored p (store w) = false ->
  click p w = exec (analyzePaper (store w) (number p)) w.
Proof.
  unfold SingleRequest.click, SingleRequest.onClick, SingleRequest.stored, SingleRequest.result.
  destruct p; now intros ->.
Qed.

(** X7. A click on a pass control sends exactly one request, carrying
    the selected file and the number of the pass, when a file is
    selected and the pass has no stored result; in every other case it
    sends nothing.  The answer of the backend plays no part. *)
Theorem single_request_click_sends (p : pass) (w : world SingleRequest.state) :
  sent (click p w)
  = (sent w ++ match SingleRequest.file (store w) with
               | Some f =>
                   if SingleRequest.stored p (store w) then []
                   else [SingleRequest.analyze_request f (number p)]
               | None => []
               end)%list.
Proof.
  destruct (SingleRequest.stored p (store w)) eqn:Hstored.
  - rewrite (click_stored1 backend p w Hstored). cbn [sent].
    destruct (SingleRequest.file (store w)); now rewrite app_nil_r.
  - rewrite (click_not_stored1 p w Hstored).
    destruct (SingleRequest.file (store w)) as [f|] eqn:Hfile.
    + exact (analyzePaper_sends1 _ _ _ f Hfile).
    + rewrite (analyzePaper_guard1 _ _ _ Hfile). now rewrite app_nil_r.
Qed.

End SingleRequestRuns.

(** X8. A pass without a stored result is clicked with a file selected
    and the backend answers with JSON whose [analysis] member is [a]
    ([undefined] when there is none): the result of that pass is [a],
    the other results are untouched, the pass becomes the current one
    and [loading] is cleared.  The page shows the panel of that pass
    when [a] is truthy and no panel otherwise, and the control of the
    next pass is enabled exactly when [a] is truthy. *)
Theorem single_request_pass_fulfilled
    (backend : Client.request -> Client.reply) (p : pass)
    (w : Client.world SingleRequest.state) (f : Client.File) (data a : value) :
  SingleRequest.file (Client.store w) = Some f ->
  SingleRequest.stored p (Client.store w) = false ->
  backend (SingleRequest.analyze_request f (number p)) = Client.Responded (Some data) ->
  get_prop data "analysis" = Normal a ->
  let s' := Client.store (SingleRequest.click backend p w) in
  SingleRequest.result p s' = a
  /\ (forall q, q <> p -> SingleRequest.result q s' = SingleRequest.result q (Client.store w))
  /\ SingleRequest.currentPass s' = number p
  /\ SingleRequest.loading s' = false
  /\ SingleRequest.file s' = Some f
  /\ SingleRequest.panels s' = (if truthy a then [(Session.title p, a)] else [])
  /\ (forall q, Session.next p = Some q ->
                (SingleRequest.button_disabled q s' = false <-> truthy a = true)).
Proof.
  intros Hfile Hstored Hreply Ha. cbn zeta.
  rewrite (click_not_stored1 backend p w Hstored).
  rewrite (analyzePaper_answered1 backend _ _ w f data Hfile Hreply).
  unfold SingleRequest.newAnalysis, SingleRequest.panels, SingleRequest.result,
    SingleRequest.button_disabled.
  destruct p; cbn; rewrite Ha; cbn; rewrite Hfile; rewrite ?andb_false_r, ?andb_true_r;
    (split; [reflexivity|]);
    (split; [intros q Hq; destruct q; congruence|]);
    (split; [reflexivity|]); (split; [reflexivity|]); (split; [reflexivity|]);
    (split; [destruct (truthy a); reflexivity|]);
    intros q Hq; cbn in Hq; try discriminate Hq; injection Hq as <-;
    cbn; destruct (truthy a); cbn; split; congruence.
Qed.

Lemma single_request_pass_fulfilled_witness :
  SingleRequest.panels (Client.store (SingleRequest.click Scenario.serving First Scenario.picked1))
  = [("First Pass Analysis", Scenario.summary)].
Proof.
  apply (single_request_pass_fulfilled Scenario.serving First Scenario.picked1 Scenario.paper
           (JObj [("analysis", Scenario.summary); ("images", JArr [Scenario.figure])])
           Scenario.summary eq_refl eq_refl eq_refl eq_refl).
Defined.

(** X9. In every state of [page.js] at most one result panel is on
    the page; when there is one, it is the panel of the current pass
    and shows the stored result of that pass. *)
Theorem at_most_one_panel (s : SingleRequest.state) :
  SingleRequest.panels s = []
  \/ exists p, SingleRequest.currentPass s = number p
               /\ SingleRequest.stored p s = true
               /\ SingleRequest.panels s = [(Session.title p, SingleRequest.result p s)].
Proof.
  destruct s as [f [r1 r2 r3] l cp].
  unfold SingleRequest.panels, SingleRequest.stored, SingleRequest.result. cbn.
  destruct (Z.eqb_spec cp 1) as [->|H1]; [|destruct (Z.eqb_spec cp 2) as [->|H2];
    [|destruct (Z.eqb_spec cp 3) as [->|H3]]];
    cbn; rewrite ?andb_false_r, ?andb_true_r; cbn.
  - destruct (truthy r1) eqn:Hr; [right; exists First | left]; auto.
  - destruct (truthy r2) eqn:Hr; [right; exists Second | left]; auto.
  - destruct (truthy r3) eqn:Hr; [right; exists Third | left]; auto.
  - now left.
Qed.



(** X12. Selecting a file sends no request and logs nothing, in both
    components.  On the page that follows no result is shown, the
    controls of passes 2 and 3 are disabled, and the control of pass 1
    is enabled exactly when a file was picked and no request is
    pending.  The state after the selection depends on the prior state
    through the [loading] flag only. *)
Theorem after_select_only_first_pass (picked : option Client.File) :
  (forall w : Client.world SingleRequest.state,
      let w' := SingleRequest.select_file picked w in
      Client.sent w' = Client.sent w
      /\ Client.console w' = Client.console w
      /\ SingleRequest.panels (Client.store w') = []
      /\ SingleRequest.button_disabled Second (Client.store w') = true
      /\ SingleRequest.button_disabled Third (Client.store w') = true
      /\ SingleRequest.button_disabled First (Client.store w')
         = negb (present picked) || SingleRequest.loading (Client.store w)
      /\ forall v : Client.world SingleRequest.state,
           SingleRequest.loading (Client.store v) = SingleRequest.loading (Client.store w) ->
           Client.store (SingleRequest.select_file picked v) = Client.store w')
  /\ (forall w : Client.world TwoPhase.state,
        let w' := TwoPhase.select_file picked w in
        Client.sent w' = Client.sent w
        /\ Client.console w' = Client.console w
        /\ TwoPhase.panel (Client.store w') = None
        /\ TwoPhase.figures (TwoPhase.render (Client.store w')) = []
        /\ TwoPhase.metadata_card (TwoPhase.render (Client.store w')) = None
        /\ TwoPhase.button_disabled Second (Client.store w') = true
        /\ TwoPhase.button_disabled Third (Client.store w') = true
        /\ TwoPhase.button_disabled First (Client.store w')
           = negb (present picked) || TwoPhase.loading (Client.store w)
        /\ forall v : Client.world TwoPhase.state,
             TwoPhase.loading (Client.store v) = TwoPhase.loading (Client.store w) ->
             Client.store (TwoPhase.select_file picked v) = Client.store w').
Proof.
  split; intros w; cbn zeta.
  - repeat (split; [reflexivity || (cbn; now rewrite orb_true_r)|]).
    intros v Hv. cbn. now rewrite Hv.
  - repeat (split; [reflexivity || (cbn; now rewrite orb_true_r)|]).
    intros v Hv. cbn. now rewrite Hv.
Qed.

(** ** The two-phase component: runs and sessions *)

(** The state with the loading flag cleared. *)
Definition idle2 (s : TwoPhase.state) : TwoPhase.state :=
  TwoPhase.mk_state (TwoPhase.file s) (TwoPhase.documentId s) (TwoPhase.analysis s)
    (TwoPhase.images s) false (TwoPhase.currentPass s) (TwoPhase.metadata s).

Section TwoPhaseRuns.

Import Client.
Variable backend : request -> reply.

Local Abbreviation uploadDocument := (TwoPhase.uploadDocument backend).
Local Abbreviation request_analysis := (TwoPhase.request_analysis backend).
Local Abbreviation analyzePaper := (TwoPhase.analyzePaper backend).
Local Abbreviation click := (TwoPhase.click backend).

Lemma uploadDocument_failure snap w f :
  TwoPhase.file snap = Some f ->
  failed (backend (TwoPhase.upload_request f)) = true ->
  exists e,
    uploadDocument snap w
    = (Normal JUndefined,
       mk_world (idle2 (store w)) (sent w ++ [TwoPhase.upload_request f])
                (console w ++ [Error "Error uploading document:" e]) (render_error w)).
Proof.
  intros Hfile Hfailed. unfold TwoPhase.uploadDocument. rewrite Hfile.
  open_handlers. cbn.
  destruct (backend _) as [|[data|]]; try discriminate; cbn; eexists; reflexivity.
Qed.

(** An answered upload: identifier and metadata go to the store,
    whatever they are, and the identifier is returned. *)
Lemma uploadDocument_answered snap w f data id md :
  TwoPhase.file snap = Some f ->
  backend (TwoPhase.upload_request f) = Responded (Some data) ->
  get_prop data "document_id" = Normal id ->
  get_prop data "metadata" = Normal md ->
  uploadDocument snap w
  = (Normal id,
     mk_world (TwoPhase.mk_state (TwoPhase.file (store w)) id (TwoPhase.analysis (store w))
                 (TwoPhase.images (store w)) false (TwoPhase.currentPass (store w)) md)
              (sent w ++ [TwoPhase.upload_request f]) (console w) (render_error w)).
Proof.
  intros Hfile Hreply Hid Hmd. unfold TwoPhase.uploadDocument. rewrite Hfile.
  open_handlers. cbn. rewrite Hreply. cbn. rewrite Hid. cbn. rewrite Hmd. cbn.
  reflexivity.
Qed.


(** What [uploadDocument] leaves of the file and the identifier. *)
Lemma uploadDocument_keeps snap w :
  let w' := exec (uploadDocument snap) w in
  TwoPhase.file (store w') = TwoPhase.file (store w)
  /\ (TwoPhase.documentId (store w') = TwoPhase.documentId (store w)
      \/ present (TwoPhase.file snap) = true).
Proof.
  unfold TwoPhase.uploadDocument. destruct (TwoPhase.file snap) as [f|]; [|now split; [|left]].
  split; [|now right]. open_handlers. cbn. by_reply; cbn; try reflexivity.
  destruct data; reflexivity.
Qed.

(** What [request_analysis] leaves of the rest of the state. *)
Lemma request_analysis_keeps snap passNumber w :
  let w' := exec (request_analysis snap passNumber) w in
  TwoPhase.file (store w') = TwoPhase.file (store w)
  /\ TwoPhase.documentId (store w') = TwoPhase.documentId (store w)
  /\ TwoPhase.metadata (store w') = TwoPhase.metadata (store w)
  /\ TwoPhase.loading (store w') = false
  /\ (TwoPhase.currentPass (store w') = TwoPhase.currentPass (store w)
      \/ TwoPhase.currentPass (store w') = passNumber).
Proof.
  unfold TwoPhase.request_analysis. open_handlers. cbn.
  by_reply; cbn; try (repeat split; auto).
  all: destruct data; cbn; auto; destruct (truthy _); cbn; auto.
Qed.

End TwoPhaseRuns.

Section TwoPhaseFirstPass.

Import Client.
Variable backend : request -> reply.

Local Abbreviation analyzePaper := (TwoPhase.analyzePaper backend).

(** X13. The two-phase [analyzePaper] has no guard on the file:
    without a file it skips the upload and still sends the analysis
    request, built from the identifier of the snapshot and without a
    body. *)
Theorem two_phase_analyze_without_file snap passNumber (w : world TwoPhase.state) :
  TwoPhase.file snap = None ->
  sent (exec (analyzePaper snap passNumber) w)
  = (sent w ++ [TwoPhase.analyze_request (TwoPhase.documentId snap) passNumber])%list
  /\ body (TwoPhase.analyze_request (TwoPhase.documentId snap) passNumber) = None.
Proof.
  intros Hfile. split; [|reflexivity].
  unfold TwoPhase.analyzePaper. rewrite Hfile, andb_false_r.
  apply request_analysis_sends.
Qed.

(** X14. When the upload that a pass needs fails (rejected, or a body
    that is not JSON), the pass ends there: the upload is the only
    request sent, the console gets an ["Error uploading document:"]
    entry, and the state is what it was with [loading] cleared, so
    results, figures, identifier and current pass are untouched. *)
Theorem upload_failure_aborts_pass snap passNumber (w : world TwoPhase.state) f :
  truthy (TwoPhase.documentId snap) = false ->
  TwoPhase.file snap = Some f ->
  failed (backend (TwoPhase.upload_request f)) = true ->
  exists e,
    exec (analyzePaper snap passNumber) w
    = mk_world (idle2 (store w)) (sent w ++ [TwoPhase.upload_request f])
               (console w ++ [Error "Error uploading document:" e]) (render_error w).
Proof.
  intros Hno Hfile Hfailed.
  destruct (uploadDocument_failure backend snap w f Hfile Hfailed) as [e Hup].
  exists e. unfold TwoPhase.analyzePaper. rewrite Hno, Hfile. cbn [negb andb present].
  unfold exec, bind. now rewrite Hup.
Qed.

(** X15. When the upload is answered with JSON whose [document_id]
    is missing or falsy, the pass ends without an analysis request and
    without a console entry; the identifier and the metadata of the
    state are overwritten with the members of that answer. *)
Theorem upload_without_identifier_aborts_pass
    snap passNumber (w : world TwoPhase.state) f data id md :
  truthy (TwoPhase.documentId snap) = false ->
  TwoPhase.file snap = Some f ->
  backend (TwoPhase.upload_request f) = Responded (Some data) ->
  get_prop data "document_id" = Normal id ->
  get_prop data "metadata" = Normal md ->
  truthy id = false ->
  exec (analyzePaper snap passNumber) w
  = mk_world (TwoPhase.mk_state (TwoPhase.file (store w)) id (TwoPhase.analysis (store w))
                (TwoPhase.images (store w)) false (TwoPhase.currentPass (store w)) md)
             (sent w ++ [TwoPhase.upload_request f]) (console w) (render_error w).
Proof.
  intros Hno Hfile Hreply Hid Hmd Hfalsy.
  unfold TwoPhase.analyzePaper. rewrite Hno, Hfile. cbn [negb andb present].
  unfold exec, bind.
  rewrite (uploadDocument_answered backend snap w f data id md Hfile Hreply Hid Hmd).
  now rewrite Hfalsy.
Qed.

(** X16. When the upload is answered with a truthy identifier, the
    state receives the identifier and the metadata, and the analysis
    request of the same call is still addressed with the [documentId]
    of the render that created the handler: exactly two requests, the
    upload and then the analysis under the old identifier. *)
Theorem first_pass_request_uses_snapshot_identifier
    snap passNumber (w : world TwoPhase.state) f data id md :
  truthy (TwoPhase.documentId snap) = false ->
  TwoPhase.file snap = Some f ->
  backend (TwoPhase.upload_request f) = Responded (Some data) ->
  get_prop data "document_id" = Normal id ->
  get_prop data "metadata" = Normal md ->
  truthy id = true ->
  let w' := exec (analyzePaper snap passNumber) w in
  sent w' = (sent w ++ [TwoPhase.upload_request f;
                        TwoPhase.analyze_request (TwoPhase.documentId snap) passNumber])%list
  /\ TwoPhase.documentId (store w') = id
  /\ TwoPhase.metadata (store w') = md.
Proof.
  intros Hno Hfile Hreply Hid Hmd Htruthy. cbn zeta.
  split; [exact (analyzePaper_after_upload backend snap passNumber w f data id
                   Hno Hfile Hreply Hid Htruthy)|].
  unfold TwoPhase.analyzePaper. rewrite Hno, Hfile. cbn [negb andb present].
  unfold exec at 1 2, bind.
  rewrite (uploadDocument_answered backend snap w f data id md Hfile Hreply Hid Hmd).
  rewrite Htruthy. cbn [negb].
  match goal with
  | |- context [TwoPhase.request_analysis backend snap passNumber ?w1] =>
      destruct (request_analysis_keeps backend snap passNumber w1) as (_ & Hd & Hm & _)
  end.
  unfold exec in Hd, Hm. cbn zeta in Hd, Hm. rewrite Hd, Hm. now cbn.
Qed.

End TwoPhaseFirstPass.

Lemma two_phase_analyze_without_file_witness :
  Client.sent (Client.exec (TwoPhase.analyzePaper Scenario.offline TwoPhase.initial 1)
                 (Scenario.fresh TwoPhase.initial))
  = [TwoPhase.analyze_request JNull 1].
Proof.
  apply (proj1 (two_phase_analyze_without_file Scenario.offline TwoPhase.initial 1
                  (Scenario.fresh TwoPhase.initial) eq_refl)).
Defined.

Lemma upload_failure_aborts_pass_witness :
  exists e,
    Client.exec (TwoPhase.analyzePaper Scenario.offline (Client.store Scenario.picked2) 1)
      Scenario.picked2
    = Client.mk_world (idle2 (Client.store Scenario.picked2))
        [TwoPhase.upload_request Scenario.paper]
        [Client.Error "Error uploading document:" e] false.
Proof.
  apply (upload_failure_aborts_pass Scenario.offline (Client.store Scenario.picked2) 1
           Scenario.picked2 Scenario.paper); reflexivity.
Defined.

Lemma upload_without_identifier_aborts_pass_witness :
  Client.sent (Client.exec (TwoPhase.analyzePaper Scenario.not_found
                              (Client.store Scenario.picked2) 1) Scenario.picked2)
  = [TwoPhase.upload_request Scenario.paper].
Proof.
  rewrite (upload_without_identifier_aborts_pass Scenario.not_found
             (Client.store Scenario.picked2) 1 Scenario.picked2 Scenario.paper
             (JObj [("detail", JStr "Not Found")]) JUndefined JUndefined
             eq_refl eq_refl eq_refl eq_refl eq_refl eq_refl).
  reflexivity.
Defined.

Lemma first_pass_request_uses_snapshot_identifier_witness :
  Client.sent (Client.exec (TwoPhase.analyzePaper Scenario.serving
                              (Client.store Scenario.picked2) 3) Scenario.picked2)
  = [TwoPhase.upload_request Scenario.paper; TwoPhase.analyze_request JNull 3].
Proof.
  apply (proj1 (first_pass_request_uses_snapshot_identifier Scenario.serving
                  (Client.store Scenario.picked2) 3 Scenario.picked2 Scenario.paper
                  (JObj [("document_id", JStr "abc"); ("metadata", JObj [("pages", JNum 12)])])
                  (JStr "abc") (JObj [("pages", JNum 12)])
                  eq_refl eq_refl eq_refl eq_refl eq_refl eq_refl)).
Defined.

Section TwoPhaseLaterPasses.

Import Client.

(** After a first pass with an answered upload the state holds the
    identifier of the answer. *)
Lemma analyzePaper_after_upload_state
    backend snap passNumber (w : world TwoPhase.state) f data id md :
  truthy (TwoPhase.documentId snap) = false ->
  TwoPhase.file snap = Some f ->
  backend (TwoPhase.upload_request f) = Responded (Some data) ->
  get_prop data "document_id" = Normal id ->
  get_prop data "metadata" = Normal md ->
  truthy id = true ->
  TwoPhase.documentId (store (exec (TwoPhase.analyzePaper backend snap passNumber) w)) = id.
Proof.
  intros Hno Hfile Hreply Hid Hmd Htruthy.
  unfold TwoPhase.analyzePaper. rewrite Hno, Hfile. cbn [negb andb present].
  unfold exec at 1, bind.
  rewrite (uploadDocument_answered backend snap w f data id md Hfile Hreply Hid Hmd).
  rewrite Htruthy. cbn [negb].
  match goal with
  | |- context [TwoPhase.request_analysis backend snap passNumber ?w1] =>
      destruct (request_analysis_keeps backend snap passNumber w1) as (_ & Hd & _)
  end.
  unfold exec in Hd. cbn zeta in Hd. rewrite Hd. now cbn.
Qed.

(** X17. Two clicks in a row on a freshly selected file whose upload
    is answered with a truthy identifier [id]: the first click sends
    the upload and an analysis request under the old identifier, the
    second click sends one analysis request addressed to [id], and no
    second upload. *)
Theorem later_passes_use_uploaded_identifier
    (first_backend second_backend : request -> reply) (p q : pass)
    (w : world TwoPhase.state) f data id md :
  truthy (TwoPhase.documentId (store w)) = false ->
  TwoPhase.file (store w) = Some f ->
  first_backend (TwoPhase.upload_request f) = Responded (Some data) ->
  get_prop data "document_id" = Normal id ->
  get_prop data "metadata" = Normal md ->
  truthy id = true ->
  sent (TwoPhase.click second_backend q (TwoPhase.click first_backend p w))
  = (sent w ++ [TwoPhase.upload_request f;
                TwoPhase.analyze_request (TwoPhase.documentId (store w)) (number p);
                TwoPhase.analyze_request id (number q)])%list.
Proof.
  intros Hno Hfile Hreply Hid Hmd Htruthy.
  pose proof (analyzePaper_after_upload_state first_backend (store w) (number p) w f data id md
                Hno Hfile Hreply Hid Hmd Htruthy) as Hstored.
  pose proof (analyzePaper_after_upload first_backend (store w) (number p) w f data id
                Hno Hfile Hreply Hid Htruthy) as Hsent.
  fold (TwoPhase.onClick first_backend p (store w)) in Hstored, Hsent.
  fold (TwoPhase.click first_backend p w) in Hstored, Hsent.
  unfold TwoPhase.click at 1, TwoPhase.onClick.
  rewrite analyzePaper_with_identifier by now rewrite Hstored.
  rewrite request_analysis_sends, Hstored, Hsent, <- app_assoc. reflexivity.
Qed.

(** X18. A pass is clicked with an identifier in the state and the
    backend answers with JSON whose [analysis] member is [a] and whose
    [images] member is [found]: the result of the pass is [a], the pass
    becomes the current one and [loading] is cleared; the page shows
    the panel of that pass when [a] is truthy and no panel otherwise.
    The image list of the state is [found] when [found] is truthy and
    the list of before otherwise; when that value is an array, the
    figures on the page are its items. *)
Theorem two_phase_pass_fulfilled
    (backend : request -> reply) (p : pass) (w : world TwoPhase.state) (data a found : value) :
  truthy (TwoPhase.documentId (store w)) = true ->
  backend (TwoPhase.analyze_request (TwoPhase.documentId (store w)) (number p))
  = Responded (Some data) ->
  get_prop data "analysis" = Normal a ->
  get_prop data "images" = Normal found ->
  let s' := store (TwoPhase.click backend p w) in
  TwoPhase.result p s' = a
  /\ TwoPhase.currentPass s' = number p
  /\ TwoPhase.loading s' = false
  /\ TwoPhase.panel s' = (if truthy a then Some (number p, a) else None)
  /\ TwoPhase.images s' = (if truthy found then found else TwoPhase.images (store w))
  /\ (forall items : list value,
        TwoPhase.images s' = JArr items ->
        TwoPhase.figures (TwoPhase.render s') = items).
Proof.
  intros Hid Hreply Ha Hfound. cbn zeta.
  unfold TwoPhase.click, TwoPhase.onClick.
  rewrite (analyzePaper_with_identifier backend _ _ Hid).
  rewrite (request_analysis_success backend _ _ w data a found Hreply Ha Hfound).
  unfold TwoPhase.result, TwoPhase.panel. cbn.
  rewrite prop_insert_eq. repeat (split; [reflexivity|]).
  now intros items ->.
Qed.

End TwoPhaseLaterPasses.

Lemma later_passes_use_uploaded_identifier_witness :
  map Client.url
    (Client.sent (TwoPhase.click Scenario.serving Second
                    (TwoPhase.click Scenario.serving First Scenario.picked2)))
  = [ "http://localhost:8000/upload/paper";
      "http://localhost:8000/analyze/paper/null?pass_number=1";
      "http://localhost:8000/analyze/paper/abc?pass_number=2" ].
Proof.
  rewrite (later_passes_use_uploaded_identifier Scenario.serving Scenario.serving First Second
             Scenario.picked2 Scenario.paper
             (JObj [("document_id", JStr "abc"); ("metadata", JObj [("pages", JNum 12)])])
             (JStr "abc") (JObj [("pages", JNum 12)])
             eq_refl eq_refl eq_refl eq_refl eq_refl eq_refl).
  reflexivity.
Defined.

Lemma two_phase_pass_fulfilled_witness :
  TwoPhase.panel (Client.store (TwoPhase.click Scenario.serving Second Scenario.analysed2))
  = Some (2, Scenario.summary).
Proof.
  apply (two_phase_pass_fulfilled Scenario.serving Second Scenario.analysed2
           (JObj [("analysis", Scenario.summary); ("images", JArr [Scenario.figure])])
           Scenario.summary (JArr [Scenario.figure]) eq_refl eq_refl eq_refl eq_refl).
Defined.

(** ** Sessions of the two-phase component *)

(** The three keys the component declares for its [analysis] object
    and writes again on every file selection. *)
Definition declared_key (k : string) : Prop :=
  k = "first_pass" \/ k = "second_pass" \/ k = "third_pass".

Lemma declared_key_is_no_pass_key k n : declared_key k -> TwoPhase.pass_key n <> k.
Proof. unfold TwoPhase.pass_key. intros [->|[->| ->]]; cbn; discriminate. Qed.



(** ** Requests of a pass *)

(** X21. In [page.js] a pass that was answered with a truthy analysis
    is not requested again: a second click on its control, whatever
    the backend would answer, sends nothing and leaves the state as
    the first click left it. *)
Theorem fulfilled_pass_is_not_requested_again
    (first_backend second_backend : Client.request -> Client.reply) (p : pass)
    (w : Client.world SingleRequest.state) (f : Client.File) (data a : value) :
  SingleRequest.file (Client.store w) = Some f ->
  SingleRequest.stored p (Client.store w) = false ->
  first_backend (SingleRequest.analyze_request f (number p)) = Client.Responded (Some data) ->
  get_prop data "analysis" = Normal a ->
  truthy a = true ->
  let w1 := SingleRequest.click first_backend p w in
  Client.sent (SingleRequest.click second_backend p w1)
  = (Client.sent w ++ [SingleRequest.analyze_request f (number p)])%list
  /\ Client.store (SingleRequest.click second_backend p w1) = Client.store w1.
Proof.
  intros Hfile Hstored Hreply Ha Htruthy. cbn zeta.
  assert (Hstore : Client.store (SingleRequest.click first_backend p w)
                   = SingleRequest.mk_state (Some f)
                       (match SingleRequest.newAnalysis (number p) data
                                (SingleRequest.analysis (Client.store w)) with
                        | Normal r => r
                        | Throw _ => SingleRequest.analysis (Client.store w)
                        end) false (number p)).
  { rewrite (click_not_stored1 first_backend p w Hstored).
    rewrite (analyzePaper_answered1 first_backend _ _ w f data Hfile Hreply).
    now rewrite Hfile. }
  assert (Hnow : SingleRequest.stored p (Client.store (SingleRequest.click first_backend p w))
                 = true).
  { rewrite Hstore. unfold SingleRequest.stored, SingleRequest.result, SingleRequest.newAnalysis.
    destruct p; cbn; rewrite Ha; exact Htruthy. }
  rewrite (click_stored1 second_backend p _ Hnow). cbn [Client.sent Client.store]. split.
  - rewrite (click_not_stored1 first_backend p w Hstored).
    exact (analyzePaper_sends1 first_backend _ _ w f Hfile).
  - now rewrite Hstore.
Qed.

Lemma fulfilled_pass_is_not_requested_again_witness :
  Client.sent (SingleRequest.click Scenario.offline First
                 (SingleRequest.click Scenario.serving First Scenario.picked1))
  = [SingleRequest.analyze_request Scenario.paper 1].
Proof.
  apply (proj1 (fulfilled_pass_is_not_requested_again Scenario.serving Scenario.offline First
                  Scenario.picked1 Scenario.paper
                  (JObj [("analysis", Scenario.summary); ("images", JArr [Scenario.figure])])
                  Scenario.summary eq_refl eq_refl eq_refl eq_refl eq_refl)).
Defined.

Lemma append_cancel_l (prefix a b : string) : prefix +:+ a = prefix +:+ b -> a = b.
Proof.
  induction prefix as [|c rest IH]; cbn; [trivial|]. intros H. injection H as H. auto.
Qed.

(** The part of a string after its last question mark. *)
Fixpoint after_last_question (s : string) : option string :=
  match s with
  | EmptyString => None
  | String c rest =>
      match after_last_question rest with
      | Some t => Some t
      | None => if Ascii.eqb c "?"%char then Some rest else None
      end
  end.

Fixpoint no_question (s : string) : bool :=
  match s with
  | EmptyString => true
  | String c rest => negb (Ascii.eqb c "?"%char) && no_question rest
  end.

Lemma no_question_after s : no_question s = true -> after_last_question s = None.
Proof.
  induction s as [|c rest IH]; cbn; [reflexivity|].
  intros H. apply andb_true_iff in H as [Hc Hrest]. rewrite (IH Hrest).
  now destruct (Ascii.eqb c "?"%char).
Qed.

Lemma after_last_question_prefix prefix s t :
  after_last_question s = Some t -> after_last_question (prefix +:+ s) = Some t.
Proof.
  intros H. induction prefix as [|c rest IH]; [exact H|].
  change (String c rest +:+ s) with (String c (rest +:+ s)).
  cbn [after_last_question]. now rewrite IH.
Qed.

Lemma pretty_N_go_no_question (x : N) (s : string) :
  no_question s = true -> no_question (pretty_N_go x s) = true.
Proof.
  revert s. induction (N.lt_wf_0 x) as [x _ IH]; intros s Hs.
  assert (x = 0 \/ 0 < x)%N as [->|Hpos] by lia; [exact Hs|].
  rewrite pretty_N_go_step by exact Hpos. apply IH; [now apply N.div_lt|].
  cbn. rewrite Hs, andb_true_r. unfold pretty_N_char. now repeat case_match.
Qed.

(** A printed pass number holds no question mark. *)
Lemma pretty_no_question (n : Z) : no_question (pretty n) = true.
Proof.
  assert (Hpos : forall x : positive, no_question (pretty x) = true).
  { intros x. unfold pretty, pretty_positive, pretty, pretty_N.
    case_decide; [reflexivity|]. now apply pretty_N_go_no_question. }
  destruct n as [|x|x]; [reflexivity | apply Hpos |].
  unfold pretty, pretty_Z. cbn. apply Hpos.
Qed.

(** The pass number can be read off the URL of an analysis request of
    the two-phase component, whatever the identifier in its path. *)
Lemma query_of_analyze_request id n :
  after_last_question (Client.url (TwoPhase.analyze_request id n))
  = Some ("pass_number=" +:+ pretty n).
Proof.
  cbn [Client.url TwoPhase.analyze_request].
  do 3 apply after_last_question_prefix.
  change ("?pass_number=" +:+ pretty n) with (String "?"%char ("pass_number=" +:+ pretty n)).
  cbn [after_last_question].
  rewrite (no_question_after ("pass_number=" +:+ pretty n)); [reflexivity|].
  cbn. apply pretty_no_question.
Qed.

(** X22. The requests of different passes differ: in both components
    equal URLs of analysis requests mean equal pass numbers, whatever
    the files and the identifiers in the two requests, and in the
    two-phase component the URL of an upload is never that of an
    analysis request. *)
Theorem pass_requests_are_distinct :
  (forall f g n m,
      Client.url (SingleRequest.analyze_request f n)
      = Client.url (SingleRequest.analyze_request g m) -> n = m)
  /\ (forall id id' n m,
        Client.url (TwoPhase.analyze_request id n)
        = Client.url (TwoPhase.analyze_request id' m) -> n = m)
  /\ (forall f id n,
        Client.url (TwoPhase.upload_request f) <> Client.url (TwoPhase.analyze_request id n)).
Proof.
  split; [|split].
  - intros f g n m H. cbn [Client.url SingleRequest.analyze_request] in H.
    apply append_cancel_l in H. apply append_cancel_l in H. exact (inj pretty _ _ H).
  - intros id id' n m H. apply (f_equal after_last_question) in H.
    rewrite !query_of_analyze_request in H. injection H as H.
    apply append_cancel_l in H. exact (inj pretty _ _ H).
  - intros f id n H. cbn in H. discriminate.
Qed.

(** ** Sessions with file selections at any time: [page.js] *)

Ltac open_awaits :=
  unfold Awaits.issue, Awaits.settle in *; open_handlers.

Section SingleRequestAwaited.

Import Client.

(** The two halves make the handler. *)
Lemma analyzePaper_split1 backend snap passNumber (w : world SingleRequest.state) f :
  SingleRequest.file snap = Some f ->
  exec (SingleRequest.analyzePaper backend snap passNumber) w
  = exec (SingleRequestAwaits.response_arrived passNumber
            (backend (SingleRequest.analyze_request f passNumber)))
         (exec (SingleRequestAwaits.request_sent f passNumber) w).
Proof.
  intros Hfile. unfold SingleRequest.analyzePaper, SingleRequestAwaits.response_arrived,
    SingleRequestAwaits.request_sent. rewrite Hfile.
  unfold SingleRequest.setLoading, SingleRequest.setCurrentPass. open_awaits. cbn.
  destruct (backend _) as [|[data|]]; reflexivity.
Qed.

(** A click that is answered at once is the click of [SingleRequest]. *)
Lemma click_split1 backend p (w : world SingleRequest.state) :
  SingleRequest.click backend p w
  = match SingleRequest.file (store w), SingleRequestAwaits.awaited p (store w) with
    | Some f, passNumber :: _ =>
        exec (SingleRequestAwaits.response_arrived passNumber
                (backend (SingleRequest.analyze_request f passNumber)))
             (exec (SingleRequestAwaits.click_begins p (store w)) w)
    | _, _ => exec (SingleRequestAwaits.click_begins p (store w)) w
    end.
Proof.
  unfold SingleRequestAwaits.awaited, SingleRequestAwaits.click_begins.
  destruct (SingleRequest.stored p (store w)) eqn:Hstored.
  - rewrite (click_stored1 backend p w Hstored).
    now destruct (SingleRequest.file (store w)).
  - rewrite (click_not_stored1 backend p w Hstored).
    destruct (SingleRequest.file (store w)) as [f|] eqn:Hfile.
    + exact (analyzePaper_split1 backend _ _ w f Hfile).
    + exact (analyzePaper_guard1 backend _ _ w Hfile).
Qed.

(** The world after the first half. *)
Lemma request_sent_world f passNumber (w : world SingleRequest.state) :
  exec (SingleRequestAwaits.request_sent f passNumber) w
  = mk_world (SingleRequest.mk_state (SingleRequest.file (store w))
                (SingleRequest.analysis (store w)) true (SingleRequest.currentPass (store w)))
             (sent w ++ [SingleRequest.analyze_request f passNumber])
             (console w ++ [Log "Analyzing paper for pass:"]) (render_error w).
Proof. reflexivity. Qed.

(** The state after the second half: the answer is written into the
    state of the moment, whatever file it was asked for. *)
Lemma response_arrived_store passNumber r (w : world SingleRequest.state) :
  store (exec (SingleRequestAwaits.response_arrived passNumber r) w)
  = match r with
    | Responded (Some data) =>
        SingleRequest.mk_state (SingleRequest.file (store w))
          (match SingleRequest.newAnalysis passNumber data (SingleRequest.analysis (store w)) with
           | Normal a => a
           | Throw _ => SingleRequest.analysis (store w)
           end)
          false passNumber
    | _ =>
        SingleRequest.mk_state (SingleRequest.file (store w))
          (SingleRequest.analysis (store w)) false (SingleRequest.currentPass (store w))
    end.
Proof.
  unfold SingleRequestAwaits.response_arrived, SingleRequest.setLoading,
    SingleRequest.setCurrentPass. open_awaits.
  destruct r as [|[data|]]; cbn; try reflexivity.
  now destruct (SingleRequest.newAnalysis passNumber data _).
Qed.

End SingleRequestAwaited.

(** A pass number of a button. *)
Definition pass_number (n : Z) : Prop := n = 1 \/ n = 2 \/ n = 3.

Lemma number_is_pass_number p : pass_number (number p).
Proof. unfold pass_number. destruct p; cbn; auto. Qed.

(** At most one request is pending, and [loading] says whether one is. *)
Definition one_at_a_time {A} (loading : bool) (waiting : list A) : Prop :=
  (List.length waiting <= 1)%nat
  /\ loading = match waiting with [] => false | _ :: _ => true end.

Lemma one_at_a_time_idle {A} (waiting : list A) :
  one_at_a_time false waiting -> waiting = [].
Proof. intros [_ H]. now destruct waiting. Qed.

Lemma one_at_a_time_single {A} loading (before after : list A) k :
  one_at_a_time loading (before ++ k :: after) -> before = [] /\ after = [].
Proof.
  intros [Hlen _]. rewrite length_app in Hlen. cbn in Hlen.
  destruct before, after; cbn in Hlen; auto; lia.
Qed.

Lemma enabled_not_loading1 p (s : SingleRequest.state) :
  SingleRequest.button_disabled p s = false ->
  SingleRequest.loading s = false /\ present (SingleRequest.file s) = true.
Proof.
  unfold SingleRequest.button_disabled.
  destruct p; rewrite ?orb_false_iff, ?negb_false_iff; tauto.
Qed.

Definition session_invariant1 (w : Client.world SingleRequest.state) (waiting : list Z) : Prop :=
  one_at_a_time (SingleRequest.loading (Client.store w)) waiting
  /\ pass_number (SingleRequest.currentPass (Client.store w))
  /\ Forall pass_number waiting.

Lemma session_keeps_invariant1 calm w waiting :
  SingleRequestAwaits.reachable calm w waiting -> session_invariant1 w waiting.
Proof.
  induction 1 as [|picked w waiting Hw IH Hcalm|p w waiting Hw IH Henabled
                  |r n w before after Hw IH].
  - repeat split; cbn; auto. unfold pass_number. auto.
  - destruct IH as (Hone & Hcp & Hall). repeat split; cbn; try apply Hone; auto.
    unfold pass_number. auto.
  - destruct IH as (Hone & Hcp & Hall).
    destruct (enabled_not_loading1 p _ Henabled) as [Hl Hfile].
    rewrite Hl in Hone. rewrite (one_at_a_time_idle waiting Hone). cbn [app].
    unfold SingleRequestAwaits.click_begins, SingleRequestAwaits.awaited.
    destruct (SingleRequest.stored p (Client.store w)).
    + repeat split; cbn; auto. apply number_is_pass_number.
    + destruct (SingleRequest.file (Client.store w)) as [f|]; [|discriminate].
      rewrite request_sent_world. repeat split; cbn; auto.
      constructor; [apply number_is_pass_number | constructor].
  - destruct IH as (Hone & Hcp & Hall).
    destruct (one_at_a_time_single _ _ _ _ Hone) as [-> ->]. cbn [app] in *.
    apply Forall_inv in Hall.
    unfold session_invariant1. rewrite response_arrived_store.
    destruct r as [|[data|]]; repeat split; cbn; auto.
Qed.

(** X10. In every session of [page.js], with files picked at any
    time, also while a request is pending, at most one request is
    pending, [loading] is set exactly while one is, the current pass
    is 1, 2 or 3, and so is the pass of a pending request. *)
Theorem single_request_one_request_at_a_time
    (calm : bool) (w : Client.world SingleRequest.state) (waiting : list Z) :
  SingleRequestAwaits.reachable calm w waiting ->
  (List.length waiting <= 1)%nat
  /\ (SingleRequest.loading (Client.store w) = true <-> waiting <> [])
  /\ pass_number (SingleRequest.currentPass (Client.store w))
  /\ Forall pass_number waiting.
Proof.
  intros Hw. destruct (session_keeps_invariant1 calm w waiting Hw) as ([Hlen Hl] & Hcp & Hall).
  repeat split; auto; rewrite Hl; destruct waiting; congruence.
Qed.

(** Passes are fulfilled in order. *)
Definition passes_in_order (s : SingleRequest.state) : Prop :=
  (SingleRequest.stored Second s = true -> SingleRequest.stored First s = true)
  /\ (SingleRequest.stored Third s = true -> SingleRequest.stored Second s = true).

(** A pending request is for a pass without a stored result whose
    predecessor has one. *)
Definition pending_in_order (s : SingleRequest.state) (n : Z) : Prop :=
  exists p, n = number p
            /\ SingleRequest.stored p s = false
            /\ forall q, Session.next q = Some p -> SingleRequest.stored q s = true.

Lemma answer_in_order p r (w : Client.world SingleRequest.state) :
  passes_in_order (Client.store w) ->
  pending_in_order (Client.store w) (number p) ->
  passes_in_order
    (Client.store (Client.exec (SingleRequestAwaits.response_arrived (number p) r) w)).
Proof.
  intros [H21 H32] (p' & Hp & Hstored & Hprev).
  apply number_inj in Hp. subst p'.
  rewrite response_arrived_store.
  destruct r as [|[data|]]; [split; assumption | | split; assumption].
  unfold passes_in_order, SingleRequest.stored, SingleRequest.result,
    SingleRequest.newAnalysis in *.
  destruct p; cbn in *; destruct (get_prop data "analysis") as [a|]; cbn;
    split; auto; intros;
    try (pose proof (Hprev First eq_refl)); try (pose proof (Hprev Second eq_refl));
    repeat match goal with
           | H : ?P -> _, H' : ?P |- _ => specialize (H H')
           end;
    congruence.
Qed.

Lemma calm_session_in_order calm w waiting :
  SingleRequestAwaits.reachable calm w waiting ->
  calm = true ->
  passes_in_order (Client.store w) /\ Forall (pending_in_order (Client.store w)) waiting.
Proof.
  induction 1 as [|picked w waiting Hw IH Hcalm|p w waiting Hw IH Henabled
                  |r n w before after Hw IH]; intros Htrue.
  - split; [split; discriminate | constructor].
  - rewrite (Hcalm Htrue). split; [split; discriminate | constructor].
  - destruct (IH Htrue) as [Horder _].
    destruct (session_keeps_invariant1 _ _ _ Hw) as (Hone & _).
    destruct (enabled_not_loading1 p _ Henabled) as [Hl Hfile].
    rewrite Hl in Hone. rewrite (one_at_a_time_idle waiting Hone). cbn [app].
    unfold SingleRequestAwaits.click_begins, SingleRequestAwaits.awaited.
    destruct (SingleRequest.stored p (Client.store w)) eqn:Hstored.
    + split; [exact Horder | constructor].
    + destruct (SingleRequest.file (Client.store w)) as [f|] eqn:Hf; [|discriminate].
      rewrite request_sent_world. split; [exact Horder|].
      constructor; [|constructor]. exists p. split; [reflexivity|]. split; [exact Hstored|].
      intros q Hq. unfold SingleRequest.button_disabled in Henabled. rewrite Hf in Henabled.
      destruct q, p; try discriminate Hq; cbn in Henabled |- *;
        rewrite ?orb_false_iff, ?negb_false_iff in Henabled; tauto.
  - destruct (IH Htrue) as [Horder Hpending].
    destruct (session_keeps_invariant1 _ _ _ Hw) as (Hone & _ & Hall).
    destruct (one_at_a_time_single _ _ _ _ Hone) as [-> ->]. cbn [app] in *.
    apply Forall_inv in Hpending. split; [|constructor].
    destruct Hpending as (p & -> & Hrest).
    apply answer_in_order; [exact Horder|]. exists p. now split.
Qed.

(** X23. In a session of [page.js] in which no file is picked while a
    request is pending, passes are fulfilled in order: a stored result
    of pass 2 comes with one of pass 1, a stored result of pass 3 with
    one of pass 2, and a pending request is for a pass without a
    stored result whose predecessor has one. *)
Theorem single_request_passes_in_order
    (w : Client.world SingleRequest.state) (waiting : list Z) :
  SingleRequestAwaits.reachable true w waiting ->
  (SingleRequest.stored Second (Client.store w) = true ->
   SingleRequest.stored First (Client.store w) = true)
  /\ (SingleRequest.stored Third (Client.store w) = true ->
      SingleRequest.stored Second (Client.store w) = true)
  /\ Forall (pending_in_order (Client.store w)) waiting.
Proof.
  intros Hw. destruct (calm_session_in_order true w waiting Hw eq_refl) as [[H21 H32] Hp].
  auto.
Qed.

(** X25. The answer to a pass that arrives after another file has
    been picked is written into the state of the new file: the result
    of that pass is the [analysis] member of the answer, the pass
    becomes the current one, and the other results are the [null] of
    the reset. *)
Theorem late_answer_is_written_after_selection
    (picked : option Client.File) (p : pass) (w : Client.world SingleRequest.state)
    (data a : value) :
  get_prop data "analysis" = Normal a ->
  let w' := Client.exec (SingleRequestAwaits.response_arrived (number p)
                           (Client.Responded (Some data)))
                        (SingleRequest.select_file picked w) in
  SingleRequest.file (Client.store w') = picked
  /\ SingleRequest.result p (Client.store w') = a
  /\ (forall q, q <> p -> SingleRequest.result q (Client.store w') = JNull)
  /\ SingleRequest.currentPass (Client.store w') = number p
  /\ SingleRequest.loading (Client.store w') = false.
Proof.
  intros Ha. cbn zeta. rewrite response_arrived_store.
  unfold SingleRequest.newAnalysis, SingleRequest.result.
  destruct p; cbn; rewrite Ha; cbn;
    (repeat split; try reflexivity); intros q Hq; destruct q; congruence.
Qed.

(** A session with a file picked while the answer to pass 2 is
    pending: the answer is stored for the new file, which has no
    result of pass 1. *)
Definition pending_session : Client.world SingleRequest.state :=
  SingleRequest.select_file (Some "other.pdf")
    (Client.exec (SingleRequestAwaits.click_begins Second (Client.store Scenario.analysed1))
       Scenario.analysed1).

Definition overlapping_session : Client.world SingleRequest.state :=
  Client.exec (SingleRequestAwaits.response_arrived 2
                 (Client.Responded (Some (JObj [("analysis", Scenario.summary)]))))
    pending_session.

Lemma analysed1_reachable calm : SingleRequestAwaits.reachable calm Scenario.analysed1 [].
Proof.
  apply (SingleRequestAwaits.answer calm
           (Scenario.serving (SingleRequest.analyze_request Scenario.paper 1)) 1
           (Client.exec (SingleRequestAwaits.click_begins First (Client.store Scenario.picked1))
              Scenario.picked1) [] []).
  apply (SingleRequestAwaits.click calm First Scenario.picked1 []); [|reflexivity].
  apply (SingleRequestAwaits.select calm (Some Scenario.paper) _ []); [|reflexivity].
  apply SingleRequestAwaits.start.
Qed.

Lemma pending_session_reachable :
  SingleRequestAwaits.reachable false pending_session [2].
Proof.
  apply (SingleRequestAwaits.select false (Some "other.pdf") _ [2]); [|discriminate].
  apply (SingleRequestAwaits.click false Second Scenario.analysed1 []); [|reflexivity].
  apply analysed1_reachable.
Qed.

Lemma overlapping_session_reachable :
  SingleRequestAwaits.reachable false overlapping_session [].
Proof.
  apply (SingleRequestAwaits.answer false _ 2 _ [] []). exact pending_session_reachable.
Qed.

Example overlapping_session_out_of_order :
  SingleRequest.stored Second (Client.store overlapping_session) = true
  /\ SingleRequest.stored First (Client.store overlapping_session) = false
  /\ SingleRequest.file (Client.store overlapping_session) = Some "other.pdf".
Proof. repeat split; reflexivity. Qed.

Lemma single_request_one_request_at_a_time_witness :
  (List.length [2] <= 1)%nat
  /\ (SingleRequest.loading (Client.store pending_session) = true <-> [2] <> [])
  /\ pass_number (SingleRequest.currentPass (Client.store pending_session))
  /\ Forall pass_number [2].
Proof.
  apply (single_request_one_request_at_a_time false pending_session [2]).
  exact pending_session_reachable.
Defined.

Lemma single_request_passes_in_order_witness :
  Forall (pending_in_order
            (Client.store (Client.exec
               (SingleRequestAwaits.click_begins Second (Client.store Scenario.analysed1))
               Scenario.analysed1)))
         [2].
Proof.
  apply (single_request_passes_in_order
           (Client.exec (SingleRequestAwaits.click_begins Second (Client.store Scenario.analysed1))
              Scenario.analysed1) [2]).
  apply (SingleRequestAwaits.click true Second Scenario.analysed1 []); [|reflexivity].
  apply analysed1_reachable.
Defined.

Lemma late_answer_is_written_after_selection_witness :
  SingleRequest.result Second (Client.store overlapping_session) = Scenario.summary.
Proof.
  apply (late_answer_is_written_after_selection (Some "other.pdf") Second
           (Client.exec (SingleRequestAwaits.click_begins Second (Client.store Scenario.analysed1))
              Scenario.analysed1)
           (JObj [("analysis", Scenario.summary)]) Scenario.summary eq_refl).
Defined.

(** ** Sessions with file selections at any time: the two-phase component *)

Section TwoPhaseAwaited.

Import Client.

(** The two halves of the request step make [request_analysis]. *)
Lemma request_analysis_split backend snap passNumber (w : world TwoPhase.state) :
  exec (TwoPhase.request_analysis backend snap passNumber) w
  = exec (TwoPhaseAwaits.analysis_arrived passNumber
            (backend (TwoPhase.analyze_request (TwoPhase.documentId snap) passNumber)))
         (exec (TwoPhaseAwaits.analysis_sent snap passNumber) w).
Proof.
  unfold TwoPhase.request_analysis, TwoPhaseAwaits.analysis_arrived,
    TwoPhaseAwaits.analysis_sent, TwoPhase.setLoading. open_awaits. cbn.
  destruct (backend _) as [|[data|]]; reflexivity.
Qed.

(** The two halves of the upload make [uploadDocument]. *)
Lemma uploadDocument_split backend snap (w : world TwoPhase.state) f :
  TwoPhase.file snap = Some f ->
  TwoPhase.uploadDocument backend snap w
  = TwoPhaseAwaits.upload_arrived (backend (TwoPhase.upload_request f))
      (exec (TwoPhaseAwaits.upload_sent f) w).
Proof.
  intros Hfile. unfold TwoPhase.uploadDocument, TwoPhaseAwaits.upload_arrived,
    TwoPhaseAwaits.upload_sent, TwoPhase.setLoading. rewrite Hfile. open_awaits. cbn.
  destruct (backend _) as [|[data|]]; reflexivity.
Qed.

(** A click whose requests are answered at once is the click of
    [TwoPhase]: with an upload first, the upload's answer sets off the
    rest of [analyzePaper], whose analysis request is then answered. *)
Lemma analyzePaper_split2 backend snap p (w : world TwoPhase.state) :
  exec (TwoPhase.analyzePaper backend snap (number p)) w
  = match TwoPhase.file snap, TwoPhaseAwaits.awaited p snap with
    | Some f, TwoPhaseAwaits.Upload _ _ :: _ =>
        match TwoPhaseAwaits.upload_answered snap (number p)
                (backend (TwoPhase.upload_request f))
                (exec (TwoPhaseAwaits.click_begins p snap) w) with
        | (Normal (_ :: _), w1) =>
            exec (TwoPhaseAwaits.analysis_arrived (number p)
                    (backend (TwoPhase.analyze_request (TwoPhase.documentId snap) (number p))))
                 w1
        | (_, w1) => w1
        end
    | _, _ =>
        exec (TwoPhaseAwaits.analysis_arrived (number p)
                (backend (TwoPhase.analyze_request (TwoPhase.documentId snap) (number p))))
             (exec (TwoPhaseAwaits.click_begins p snap) w)
    end.
Proof.
  unfold TwoPhase.analyzePaper, TwoPhaseAwaits.awaited, TwoPhaseAwaits.click_begins,
    TwoPhaseAwaits.uploads_first, TwoPhaseAwaits.upload_answered.
  destruct (negb (truthy (TwoPhase.documentId snap)) && present (TwoPhase.file snap)) eqn:Hup.
  - apply andb_true_iff in Hup as [_ Hfile].
    destruct (TwoPhase.file snap) as [f|] eqn:Hf; [|discriminate].
    unfold exec at 1, bind.
    rewrite (uploadDocument_split backend snap w f Hf).
    destruct (TwoPhaseAwaits.upload_arrived _ _) as [[newDocId|e] w1]; [|reflexivity].
    destruct (truthy newDocId); cbn [negb]; [|reflexivity].
    fold (exec (TwoPhase.request_analysis backend snap (number p)) w1).
    rewrite request_analysis_split. reflexivity.
  - destruct (TwoPhase.file snap); apply request_analysis_split.
Qed.

(** The world after a request has left. *)
Lemma upload_sent_world f (w : world TwoPhase.state) :
  exec (TwoPhaseAwaits.upload_sent f) w
  = mk_world (TwoPhase.mk_state (TwoPhase.file (store w)) (TwoPhase.documentId (store w))
                (TwoPhase.analysis (store w)) (TwoPhase.images (store w)) true
                (TwoPhase.currentPass (store w)) (TwoPhase.metadata (store w)))
             (sent w ++ [TwoPhase.upload_request f]) (console w) (render_error w).
Proof. reflexivity. Qed.

Lemma analysis_sent_world snap passNumber (w : world TwoPhase.state) :
  exec (TwoPhaseAwaits.analysis_sent snap passNumber) w
  = mk_world (TwoPhase.mk_state (TwoPhase.file (store w)) (TwoPhase.documentId (store w))
                (TwoPhase.analysis (store w)) (TwoPhase.images (store w)) true
                (TwoPhase.currentPass (store w)) (TwoPhase.metadata (store w)))
             (sent w ++ [TwoPhase.analyze_request (TwoPhase.documentId snap) passNumber])
             (console w) (render_error w).
Proof. reflexivity. Qed.

(** The answer to an upload: identifier and metadata of the answer go
    to the state of the moment; nothing else of the state changes
    but [loading]. *)
Lemma upload_arrived_run r (w : world TwoPhase.state) :
  exists newDocId id md log,
    TwoPhaseAwaits.upload_arrived r w
    = (Normal newDocId,
       mk_world (TwoPhase.mk_state (TwoPhase.file (store w)) id (TwoPhase.analysis (store w))
                   (TwoPhase.images (store w)) false (TwoPhase.currentPass (store w)) md)
                (sent w) (console w ++ log) (render_error w))
    /\ (truthy newDocId = true -> id = newDocId)
    /\ (id = newDocId \/ id = TwoPhase.documentId (store w)).
Proof.
  unfold TwoPhaseAwaits.upload_arrived, TwoPhase.setLoading, TwoPhase.setDocumentId,
    TwoPhase.setMetadata. open_awaits.
  destruct r as [|[data|]]; cbn.
  - exists JUndefined, (TwoPhase.documentId (store w)), (TwoPhase.metadata (store w)).
    eexists. split; [reflexivity|]. split; [discriminate | now right].
  - destruct data; cbn;
      try (exists JUndefined, (TwoPhase.documentId (store w)), (TwoPhase.metadata (store w));
           eexists; split; [reflexivity|]; split; [discriminate | now right]);
      try (eexists _, _, _, []; rewrite app_nil_r; split; [reflexivity|]; split; auto).
  - exists JUndefined, (TwoPhase.documentId (store w)), (TwoPhase.metadata (store w)).
    eexists. split; [reflexivity|]. split; [discriminate | now right].
Qed.

(** The answer to an analysis request: the result goes under the key
    of its pass in the state of the moment. *)
Lemma analysis_arrived_store passNumber r (w : world TwoPhase.state) :
  exists results imgs current,
    store (exec (TwoPhaseAwaits.analysis_arrived passNumber r) w)
    = TwoPhase.mk_state (TwoPhase.file (store w)) (TwoPhase.documentId (store w)) results imgs
        false current (TwoPhase.metadata (store w))
    /\ (results = TwoPhase.analysis (store w)
        \/ exists a, results = <[TwoPhase.pass_key passNumber := a]> (TwoPhase.analysis (store w)))
    /\ (current = TwoPhase.currentPass (store w) \/ current = passNumber).
Proof.
  unfold TwoPhaseAwaits.analysis_arrived, TwoPhase.setLoading, TwoPhase.setImages,
    TwoPhase.setCurrentPass. open_awaits.
  destruct r as [|[data|]]; cbn; try (eexists _, _, _; split; [reflexivity|]; auto).
  destruct data; cbn;
    try (eexists _, _, _; split; [reflexivity|]; split; [|auto]; eauto);
    destruct (truthy _); cbn; eexists _, _, _; (split; [reflexivity|]); split; eauto.
Qed.

End TwoPhaseAwaited.

Definition pass_of (k : TwoPhaseAwaits.awaiting) : Z :=
  match k with
  | TwoPhaseAwaits.Upload _ passNumber => passNumber
  | TwoPhaseAwaits.Analysis passNumber => passNumber
  end.

Lemma enabled_not_loading2 p (s : TwoPhase.state) :
  TwoPhase.button_disabled p s = false ->
  TwoPhase.loading s = false /\ present (TwoPhase.file s) = true.
Proof.
  unfold TwoPhase.button_disabled.
  destruct p; rewrite ?orb_false_iff, ?negb_false_iff; tauto.
Qed.

Lemma no_results_declared k : declared_key k -> TwoPhase.prop TwoPhase.no_results k = JNull.
Proof. intros [->|[->| ->]]; reflexivity. Qed.

Definition session_invariant2
    (w : Client.world TwoPhase.state) (waiting : list TwoPhaseAwaits.awaiting) : Prop :=
  one_at_a_time (TwoPhase.loading (Client.store w)) waiting
  /\ pass_number (TwoPhase.currentPass (Client.store w))
  /\ Forall (fun k => pass_number (pass_of k)) waiting
  /\ (forall k, declared_key k -> TwoPhase.prop (TwoPhase.analysis (Client.store w)) k = JNull).

(** What an answer does to a world that waits for it alone. *)
Lemma resumes_invariant2 k r (w w' : Client.world TwoPhase.state) next :
  session_invariant2 w [k] ->
  TwoPhaseAwaits.resumes k r w = (Normal next, w') ->
  session_invariant2 w' next
  /\ TwoPhase.file (Client.store w') = TwoPhase.file (Client.store w)
  /\ (TwoPhase.documentId (Client.store w') = TwoPhase.documentId (Client.store w)
      \/ exists snap n, k = TwoPhaseAwaits.Upload snap n).
Proof.
  intros (Hone & Hcp & Hall & Hkeys) Hrun. apply Forall_inv in Hall.
  destruct k as [snap n|n]; cbn [TwoPhaseAwaits.resumes pass_of] in *.
  - unfold TwoPhaseAwaits.upload_answered, Client.bind in Hrun.
    destruct (upload_arrived_run r w) as (newDocId & id & md & log & Hup & _ & _).
    rewrite Hup in Hrun. destruct (truthy newDocId); cbn [negb] in Hrun.
    + fold (Client.bind (TwoPhaseAwaits.analysis_sent snap n)
              (fun _ => Client.ret [TwoPhaseAwaits.Analysis n])) in Hrun.
      unfold Client.bind, Client.ret in Hrun.
      match type of Hrun with
      | context [TwoPhaseAwaits.analysis_sent snap n ?w1] =>
          pose proof (analysis_sent_world snap n w1) as Hsent;
          unfold Client.exec in Hsent;
          destruct (TwoPhaseAwaits.analysis_sent snap n w1) as [[[]|e] w2] eqn:Hw2;
            cbn in Hsent; [|discriminate Hrun]
      end.
      injection Hrun as <- <-. subst w2.
      split; [|split; [reflexivity | right; eauto]].
      repeat split; cbn; auto.
    + injection Hrun as <- <-.
      split; [|split; [reflexivity | right; eauto]].
      repeat split; cbn; auto.
  - unfold Client.bind, Client.ret in Hrun.
    destruct (analysis_arrived_store n r w) as (results & imgs & current & Hstore & Hres & Hcur).
    unfold Client.exec in Hstore.
    destruct (TwoPhaseAwaits.analysis_arrived n r w) as [[[]|e] w1]; [|discriminate Hrun].
    injection Hrun as <- <-. cbn [snd] in Hstore.
    split; [|rewrite Hstore; split; [reflexivity | now left]].
    unfold session_invariant2. rewrite Hstore. cbn. repeat split; auto.
    + destruct Hcur as [-> | ->]; assumption.
    + intros k Hk. destruct Hres as [-> | [a ->]]; auto.
      rewrite prop_insert_ne; auto. now apply declared_key_is_no_pass_key.
Qed.

Lemma session_keeps_invariant2 calm w waiting :
  TwoPhaseAwaits.reachable calm w waiting -> session_invariant2 w waiting.
Proof.
  induction 1 as [|picked w waiting Hw IH Hcalm|p w waiting Hw IH Henabled
                  |r k w before after next w' Hw IH Hrun].
  - repeat split; cbn; auto; [unfold pass_number; auto | apply no_results_declared].
  - destruct IH as (Hone & Hcp & Hall & Hkeys).
    repeat split; cbn; try apply Hone; auto;
      [unfold pass_number; auto | apply no_results_declared].
  - destruct IH as (Hone & Hcp & Hall & Hkeys).
    destruct (enabled_not_loading2 p _ Henabled) as [Hl Hfile].
    rewrite Hl in Hone. rewrite (one_at_a_time_idle waiting Hone). cbn [app].
    unfold TwoPhaseAwaits.click_begins, TwoPhaseAwaits.awaited.
    destruct (TwoPhaseAwaits.uploads_first (Client.store w)).
    + destruct (TwoPhase.file (Client.store w)) as [f|]; [|discriminate].
      rewrite upload_sent_world. repeat split; cbn; auto.
      constructor; [apply number_is_pass_number | constructor].
    + rewrite analysis_sent_world. repeat split; cbn; auto.
      constructor; [apply number_is_pass_number | constructor].
  - destruct (one_at_a_time_single _ _ _ _ (proj1 IH)) as [-> ->]. cbn [app] in *.
    exact (proj1 (resumes_invariant2 k r w w' next IH Hrun)).
Qed.

(** X19. In every session of the two-phase component, with files
    picked at any time, also while a request is pending, at most one
    request is pending (an upload or an analysis), [loading] is set
    exactly while one is, the current pass is 1, 2 or 3, and the three
    keys the component declares for its results ([first_pass],
    [second_pass], [third_pass]) still hold [null]: results are only
    ever written under [pass_1], [pass_2], [pass_3]. *)
Theorem two_phase_one_request_at_a_time
    (calm : bool) (w : Client.world TwoPhase.state) (waiting : list TwoPhaseAwaits.awaiting) :
  TwoPhaseAwaits.reachable calm w waiting ->
  (List.length waiting <= 1)%nat
  /\ (TwoPhase.loading (Client.store w) = true <-> waiting <> [])
  /\ pass_number (TwoPhase.currentPass (Client.store w))
  /\ Forall (fun k => pass_number (pass_of k)) waiting
  /\ (forall k, declared_key k -> TwoPhase.prop (TwoPhase.analysis (Client.store w)) k = JNull).
Proof.
  intros Hw.
  destruct (session_keeps_invariant2 calm w waiting Hw) as ([Hlen Hl] & Hcp & Hall & Hkeys).
  repeat split; auto; rewrite Hl; destruct waiting; congruence.
Qed.

Lemma calm_session_identifier calm w waiting :
  TwoPhaseAwaits.reachable calm w waiting ->
  calm = true ->
  (truthy (TwoPhase.documentId (Client.store w)) = true ->
   present (TwoPhase.file (Client.store w)) = true)
  /\ (waiting <> [] -> present (TwoPhase.file (Client.store w)) = true).
Proof.
  induction 1 as [|picked w waiting Hw IH Hcalm|p w waiting Hw IH Henabled
                  |r k w before after next w' Hw IH Hrun]; intros Htrue.
  - split; [discriminate | congruence].
  - rewrite (Hcalm Htrue). split; [discriminate | congruence].
  - destruct (IH Htrue) as [Hid _].
    destruct (enabled_not_loading2 p _ Henabled) as [_ Hfile].
    unfold TwoPhaseAwaits.click_begins.
    destruct (TwoPhaseAwaits.uploads_first (Client.store w)).
    + destruct (TwoPhase.file (Client.store w)) as [f|] eqn:Hf; [|discriminate].
      rewrite upload_sent_world. cbn. rewrite Hf. auto.
    + rewrite analysis_sent_world. cbn. auto.
  - destruct (IH Htrue) as [_ Hfile].
    pose proof (session_keeps_invariant2 _ _ _ Hw) as Hinv.
    destruct (one_at_a_time_single _ _ _ _ (proj1 Hinv)) as [-> ->]. cbn [app] in *.
    destruct (resumes_invariant2 k r w w' next Hinv Hrun) as (_ & Hf & _).
    rewrite Hf. split; intros _; apply Hfile; discriminate.
Qed.

(** X24. In a session of the two-phase component in which no file is
    picked while a request is pending, a truthy document identifier in
    the state comes with a selected file, and so does a pending
    request. *)
Theorem two_phase_identifier_has_file
    (w : Client.world TwoPhase.state) (waiting : list TwoPhaseAwaits.awaiting) :
  TwoPhaseAwaits.reachable true w waiting ->
  (truthy (TwoPhase.documentId (Client.store w)) = true ->
   present (TwoPhase.file (Client.store w)) = true)
  /\ (waiting <> [] -> present (TwoPhase.file (Client.store w)) = true).
Proof. intros Hw. exact (calm_session_identifier true w waiting Hw eq_refl). Qed.

(** An upload answered with a truthy identifier, in any state: the
    identifier and the metadata go to that state, and the analysis
    request is sent for the identifier of the click's render. *)
Lemma upload_answered_identified
    (snap : TwoPhase.state) (passNumber : Z) (data id md : value)
    (w : Client.world TwoPhase.state) :
  get_prop data "document_id" = Normal id ->
  get_prop data "metadata" = Normal md ->
  truthy id = true ->
  TwoPhaseAwaits.upload_answered snap passNumber (Client.Responded (Some data)) w
  = (Normal [TwoPhaseAwaits.Analysis passNumber],
     Client.mk_world
       (TwoPhase.mk_state (TwoPhase.file (Client.store w)) id
          (TwoPhase.analysis (Client.store w)) (TwoPhase.images (Client.store w)) true
          (TwoPhase.currentPass (Client.store w)) md)
       (Client.sent w ++ [TwoPhase.analyze_request (TwoPhase.documentId snap) passNumber])%list
       (Client.console w) (Client.render_error w)).
Proof.
  intros Hid Hmd Htruthy.
  unfold TwoPhaseAwaits.upload_answered, TwoPhaseAwaits.upload_arrived,
    TwoPhaseAwaits.analysis_sent, TwoPhase.setLoading, TwoPhase.setDocumentId,
    TwoPhase.setMetadata.
  open_awaits. cbn. rewrite Hid. cbn. rewrite Hmd. cbn. rewrite Htruthy. reflexivity.
Qed.

(** X26. The answer to an upload that arrives after another file has
    been picked, or the picker emptied, stores its identifier and
    metadata in the state of the new selection and sends the analysis
    request of the old click; with that identifier in the state, the
    next click does not upload the new file. *)
Theorem late_upload_answer_keeps_old_identifier
    (picked : option Client.File) (snap : TwoPhase.state) (passNumber : Z)
    (w : Client.world TwoPhase.state) (data id md : value) :
  get_prop data "document_id" = Normal id ->
  get_prop data "metadata" = Normal md ->
  truthy id = true ->
  exists w',
    TwoPhaseAwaits.resumes (TwoPhaseAwaits.Upload snap passNumber)
      (Client.Responded (Some data)) (TwoPhase.select_file picked w)
    = (Normal [TwoPhaseAwaits.Analysis passNumber], w')
    /\ TwoPhase.file (Client.store w') = picked
    /\ TwoPhase.documentId (Client.store w') = id
    /\ TwoPhase.metadata (Client.store w') = md
    /\ Client.sent w'
       = (Client.sent w ++ [TwoPhase.analyze_request (TwoPhase.documentId snap) passNumber])%list
    /\ TwoPhaseAwaits.uploads_first (Client.store w') = false.
Proof.
  intros Hid Hmd Htruthy. eexists. split.
  - unfold TwoPhaseAwaits.resumes.
    exact (upload_answered_identified snap passNumber data id md _ Hid Hmd Htruthy).
  - repeat (split; [reflexivity|]).
    unfold TwoPhaseAwaits.uploads_first. cbn [Client.store TwoPhase.documentId TwoPhase.file].
    now rewrite Htruthy.
Qed.

(** A session with the picker emptied while the upload is pending: the
    identifier arrives for a state without a file. *)
Definition uploading_session : Client.world TwoPhase.state :=
  TwoPhase.select_file None
    (Client.exec (TwoPhaseAwaits.click_begins First (Client.store Scenario.picked2))
       Scenario.picked2).

Lemma uploading_session_reachable :
  TwoPhaseAwaits.reachable false uploading_session
    [TwoPhaseAwaits.Upload (Client.store Scenario.picked2) 1].
Proof.
  apply (TwoPhaseAwaits.select false None _
           [TwoPhaseAwaits.Upload (Client.store Scenario.picked2) 1]); [|discriminate].
  apply (TwoPhaseAwaits.click false First Scenario.picked2 []); [|reflexivity].
  apply (TwoPhaseAwaits.select false (Some Scenario.paper) _ []); [|reflexivity].
  apply TwoPhaseAwaits.start.
Qed.

Lemma two_phase_one_request_at_a_time_witness :
  (TwoPhase.loading (Client.store uploading_session) = true
   <-> [TwoPhaseAwaits.Upload (Client.store Scenario.picked2) 1] <> []).
Proof.
  apply (two_phase_one_request_at_a_time false uploading_session
           [TwoPhaseAwaits.Upload (Client.store Scenario.picked2) 1]).
  exact uploading_session_reachable.
Defined.

Lemma two_phase_identifier_has_file_witness :
  present (TwoPhase.file (Client.store
             (Client.exec (TwoPhaseAwaits.click_begins First (Client.store Scenario.picked2))
                Scenario.picked2))) = true.
Proof.
  apply (proj2 (two_phase_identifier_has_file
                  (Client.exec (TwoPhaseAwaits.click_begins First (Client.store Scenario.picked2))
                     Scenario.picked2)
                  [TwoPhaseAwaits.Upload (Client.store Scenario.picked2) 1]
                  ltac:(apply (TwoPhaseAwaits.click true First Scenario.picked2 []);
                        [apply (TwoPhaseAwaits.select true (Some Scenario.paper) _ []);
                           [apply TwoPhaseAwaits.start | reflexivity]
                        | reflexivity]))).
  discriminate.
Defined.

Lemma late_upload_answer_keeps_old_identifier_witness :
  exists w',
    TwoPhaseAwaits.resumes (TwoPhaseAwaits.Upload (Client.store Scenario.picked2) 1)
      (Client.Responded (Some (JObj [("document_id", JStr "abc");
                                     ("metadata", JObj [("pages", JNum 12)])])))
      uploading_session
    = (Normal [TwoPhaseAwaits.Analysis 1], w')
    /\ TwoPhase.file (Client.store w') = None
    /\ TwoPhase.documentId (Client.store w') = JStr "abc"
    /\ TwoPhase.metadata (Client.store w') = JObj [("pages", JNum 12)]
    /\ Client.sent w'
       = (Client.sent (Client.exec (TwoPhaseAwaits.click_begins First
                                      (Client.store Scenario.picked2)) Scenario.picked2)
          ++ [TwoPhase.analyze_request (TwoPhase.documentId (Client.store Scenario.picked2)) 1])%list
    /\ TwoPhaseAwaits.uploads_first (Client.store w') = false.
Proof.
  apply (late_upload_answer_keeps_old_identifier None (Client.store Scenario.picked2) 1
           (Client.exec (TwoPhaseAwaits.click_begins First (Client.store Scenario.picked2))
              Scenario.picked2)
           (JObj [("document_id", JStr "abc"); ("metadata", JObj [("pages", JNum 12)])])
           (JStr "abc") (JObj [("pages", JNum 12)]) eq_refl eq_refl eq_refl).
Defined.
